(** * OpenCL vector addition host program: model and verification

    A shallow embedding of [opencl_matrix_add.cpp].  The host program is a
    straight-line pipeline over mutable globals that talks to three external
    parties: the C library (malloc, free, rand, atoi, printf, perror, fopen),
    the clock, and the OpenCL platform.  It is modelled as a state-and-exit
    monad over a record holding the globals, host memory, device memory and a
    chronological trace of every external call, so that sequencing properties
    (what is called, in which order, with which arguments) can be read off the
    trace. *)

From Stdlib Require Import ZArith List String Ascii Bool Lia QArith.
Import ListNotations.
Open Scope Z_scope.

(** ** Machine integers (LP64: 32-bit [int], 64-bit [long] and [size_t]) *)

Definition INT_MAX : Z := 2147483647.
Definition INT_MIN : Z := -2147483648.
Definition LONG_MAX : Z := 9223372036854775807.
Definition LONG_MIN : Z := -9223372036854775808.
Definition SIZE_MODULUS : Z := 18446744073709551616.
Definition sizeof_int : Z := 4.

(** Conversion of a value to [int]: wrap-around modulo 2^32. *)
Definition to_int (z : Z) : Z := (z + 2147483648) mod 4294967296 - 2147483648.

(** Conversion of a value to [size_t]: reduction modulo 2^64. *)
Definition to_size_t (z : Z) : Z := z mod SIZE_MODULUS.

(** Multiplication in [size_t]. *)
Definition size_mul (a b : Z) : Z := (a * b) mod SIZE_MODULUS.

(** [int + int] as the device computes it. *)
Definition add_int (a b : Z) : Z := to_int (a + b).

Definition is_int (z : Z) : Prop := INT_MIN <= z <= INT_MAX.

(** ** [atoi], as the C library implements it: [(int) strtol (s, NULL, 10)] *)

Definition isspace (c : ascii) : bool :=
  let n := Z.of_nat (nat_of_ascii c) in
  (n =? 32) || ((9 <=? n) && (n <=? 13)).

Definition digit_of (c : ascii) : option Z :=
  let n := Z.of_nat (nat_of_ascii c) in
  if (48 <=? n) && (n <=? 57) then Some (n - 48) else None.

Fixpoint skip_space (s : string) : string :=
  match s with
  | String c r => if isspace c then skip_space r else s
  | EmptyString => s
  end.

Fixpoint digits (s : string) (acc : Z) : Z :=
  match s with
  | String c r =>
      match digit_of c with
      | Some d => digits r (acc * 10 + d)
      | None => acc
      end
  | EmptyString => acc
  end.

Definition clamp_long (z : Z) : Z := Z.max LONG_MIN (Z.min LONG_MAX z).

Definition strtol10 (s : string) : Z :=
  match skip_space s with
  | String "-"%char r => clamp_long (- digits r 0)
  | String "+"%char r => clamp_long (digits r 0)
  | r => clamp_long (digits r 0)
  end.

Definition atoi (s : string) : Z := to_int (strtol10 s).

(** The subject sequence of the conversion: after optional white space and an
    optional sign, at least one decimal digit.  When it is absent no
    conversion is performed. *)
Definition first_is_digit (s : string) : bool :=
  match s with
  | String c _ => match digit_of c with Some _ => true | None => false end
  | EmptyString => false
  end.

Definition parses_as_decimal (s : string) : bool :=
  match skip_space s with
  | String "-"%char r => first_is_digit r
  | String "+"%char r => first_is_digit r
  | r => first_is_digit r
  end.

(** ** Program globals *)

Inductive gvar :=
| SZ | v1 | v2 | v_out
| bufV1 | bufV2 | bufV_out
| device_id | context | program | kernel | queue | event | err.

Definition gvar_eqb (a b : gvar) : bool :=
  match a, b with
  | SZ, SZ | v1, v1 | v2, v2 | v_out, v_out
  | bufV1, bufV1 | bufV2, bufV2 | bufV_out, bufV_out
  | device_id, device_id | context, context | program, program
  | kernel, kernel | queue, queue | event, event | err, err => true
  | _, _ => false
  end.

(** ** External calls and their trace *)

Definition handle := Z.
Definition NULL : handle := 0.
Definition cl_int := Z.

Definition CL_SUCCESS : cl_int := 0.
Definition CL_DEVICE_NOT_FOUND : cl_int := -1.
Definition CL_INVALID_VALUE : cl_int := -30.
Definition CL_INVALID_MEM_OBJECT : cl_int := -38.
Definition CL_INVALID_KERNEL_ARGS : cl_int := -52.
Definition CL_INVALID_EVENT : cl_int := -58.

Inductive device_type := CL_DEVICE_TYPE_GPU | CL_DEVICE_TYPE_CPU.

(** The kinds of object the five [clRelease*] functions take. *)
Inductive cl_object := MemObject | Kernel | CommandQueue | Program | Context.

(** Arguments of a [printf] conversion: [%d], [%s] and [%f].  A [double]
    number of milliseconds is kept as the exact rational it approximates. *)
Inductive printf_arg :=
| AInt (z : Z)
| AStr (s : string)
| ADouble (q : Q).

(** Every fallible external call of the program, named by its place in the
    source, so that a test double can script the result of each one. *)
Inductive site :=
| at_malloc (A : gvar)                 (* init: the host vector behind [A] *)
| at_malloc_source                     (* build_program: program_buffer *)
| at_malloc_log                        (* build_program: program_log *)
| at_fopen
| at_clGetPlatformIDs
| at_clGetDeviceIDs (t : device_type)
| at_clCreateContext
| at_clCreateProgramWithSource
| at_clBuildProgram
| at_clCreateCommandQueue
| at_clCreateKernel
| at_clCreateBuffer (b : gvar)
| at_clEnqueueWriteBuffer (b : gvar)
| at_clSetKernelArg (idx : Z)
| at_clEnqueueNDRangeKernel
| at_clWaitForEvents
| at_clEnqueueReadBuffer.

(** One entry of the trace: an external call with its arguments and what it
    returned. *)
Inductive io :=
| Call_malloc (bytes : Z) (p : handle)
| Call_free (p : handle)
| Call_fopen (name : string) (f : handle)
| Call_clGetPlatformIDs (r : cl_int)
| Call_clGetDeviceIDs (t : device_type) (r : cl_int)
| Call_clCreateContext (dev h : handle)
| Call_clCreateProgramWithSource (ctx h : handle)
| Call_clBuildProgram (prog : handle) (r : cl_int)
| Call_clCreateCommandQueue (ctx dev h : handle)
| Call_clCreateKernel (prog : handle) (name : string) (h : handle)
| Call_clCreateBuffer (ctx : handle) (bytes : Z) (h : handle)
| Call_clEnqueueWriteBuffer (q buf : handle) (bytes : Z) (src : handle) (r : cl_int)
| Call_clSetKernelArg (k : handle) (idx size value : Z) (r : cl_int)
| Call_clEnqueueNDRangeKernel (q k : handle) (global : Z) (r : cl_int)
| Call_clWaitForEvents (ev : handle) (r : cl_int)
| Call_clEnqueueReadBuffer (q buf : handle) (bytes : Z) (dst : handle) (r : cl_int)
| Call_clRelease (o : cl_object) (h : handle)
| Call_now (t : Z)
| Printf (fmt : string) (args : list printf_arg)
| Perror (msg : string).

(** ** The environment of a run

    [w_fault s = Some e] makes the call at site [s] fail; for an OpenCL call
    the error code is [- e], always negative as every OpenCL error code is.
    [w_rand k] is the value of the [k]-th call of [rand ()] in a process that
    never called [srand]; [w_clock k] is the [k]-th reading of
    [high_resolution_clock], in nanoseconds. *)
Record World := {
  w_fault : site -> option positive;
  w_rand : nat -> Z;
  w_clock : nat -> Z;
  w_source : string;
  w_build_log : string
}.

(** ** Machine state *)

Definition block := Z -> Z.
Definition devmem := handle -> option block.

Record St := {
  glob : gvar -> Z;
  heap : handle -> block;
  dmem : devmem;
  kargs : Z -> option Z;
  fresh : positive;
  nrand : nat;
  nclock : nat;
  trace : list io
}.

Definition upd {V : Type} (f : Z -> V) (k : Z) (v : V) : Z -> V :=
  fun x => if x =? k then v else f x.

Definition gupd (f : gvar -> Z) (g : gvar) (v : Z) : gvar -> Z :=
  fun x => if gvar_eqb x g then v else f x.

Definition set_glob (f : gvar -> Z) (st : St) : St :=
  {| glob := f; heap := heap st; dmem := dmem st; kargs := kargs st;
     fresh := fresh st; nrand := nrand st; nclock := nclock st; trace := trace st |}.
Definition set_heap (h : handle -> block) (st : St) : St :=
  {| glob := glob st; heap := h; dmem := dmem st; kargs := kargs st;
     fresh := fresh st; nrand := nrand st; nclock := nclock st; trace := trace st |}.
Definition set_dmem (m : devmem) (st : St) : St :=
  {| glob := glob st; heap := heap st; dmem := m; kargs := kargs st;
     fresh := fresh st; nrand := nrand st; nclock := nclock st; trace := trace st |}.
Definition set_kargs (a : Z -> option Z) (st : St) : St :=
  {| glob := glob st; heap := heap st; dmem := dmem st; kargs := a;
     fresh := fresh st; nrand := nrand st; nclock := nclock st; trace := trace st |}.
Definition set_fresh (n : positive) (st : St) : St :=
  {| glob := glob st; heap := heap st; dmem := dmem st; kargs := kargs st;
     fresh := n; nrand := nrand st; nclock := nclock st; trace := trace st |}.
Definition set_nrand (n : nat) (st : St) : St :=
  {| glob := glob st; heap := heap st; dmem := dmem st; kargs := kargs st;
     fresh := fresh st; nrand := n; nclock := nclock st; trace := trace st |}.
Definition set_nclock (n : nat) (st : St) : St :=
  {| glob := glob st; heap := heap st; dmem := dmem st; kargs := kargs st;
     fresh := fresh st; nrand := nrand st; nclock := n; trace := trace st |}.
Definition log (e : io) (st : St) : St :=
  {| glob := glob st; heap := heap st; dmem := dmem st; kargs := kargs st;
     fresh := fresh st; nrand := nrand st; nclock := nclock st;
     trace := trace st ++ [e] |}.

(** Process start: [int SZ = 100000000], every other global zero, nothing
    allocated.  Pointers and handles are handed out from one counter, so they
    are pairwise distinct and never null. *)
Definition initial : St :=
  {| glob := fun g => match g with SZ => 100000000 | _ => 0 end;
     heap := fun _ _ => 0;
     dmem := fun _ => None;
     kargs := fun _ => None;
     fresh := 1%positive;
     nrand := O;
     nclock := O;
     trace := [] |}.

(** ** The monad: state, [exit (code)] and a crash on a null dereference *)

Inductive outcome (A : Type) :=
| Ret (a : A)
| Exit (code : Z)
| Crash.
Arguments Ret {A} a.
Arguments Exit {A} code.
Arguments Crash {A}.

Definition M (A : Type) : Type := St -> outcome A * St.

Definition ret {A} (a : A) : M A := fun st => (Ret a, st).

Definition bind {A B} (m : M A) (k : A -> M B) : M B :=
  fun st =>
    match m st with
    | (Ret a, st') => k a st'
    | (Exit c, st') => (Exit c, st')
    | (Crash, st') => (Crash, st')
    end.

Notation "x <- m ;; k" := (bind m (fun x => k))
  (at level 61, m at next level, right associativity).
Notation "m ;; k" := (bind m (fun _ => k))
  (at level 61, right associativity).

Definition exit {A} (code : Z) : M A := fun st => (Exit code, st).
Definition crash {A} : M A := fun st => (Crash, st).
Definition emit (e : io) : M unit := fun st => (Ret tt, log e st).
Definition get (g : gvar) : M Z := fun st => (Ret (glob st g), st).
Definition set (g : gvar) (v : Z) : M unit :=
  fun st => (Ret tt, set_glob (gupd (glob st) g v) st).

Definition printf (fmt : string) (args : list printf_arg) : M unit :=
  emit (Printf fmt args).
Definition perror (msg : string) : M unit := emit (Perror msg).

(** [for (long i = lo; i < hi; i++) body] *)
Fixpoint for_loop (n : nat) (i : Z) (body : Z -> M unit) : M unit :=
  match n with
  | O => ret tt
  | S k => body i ;; for_loop k (i + 1) body
  end.

Definition for_range (lo hi : Z) (body : Z -> M unit) : M unit :=
  for_loop (Z.to_nat (hi - lo)) lo body.

(** Host memory accesses through a pointer; a null pointer traps. *)
Definition load (p : handle) (i : Z) : M Z :=
  fun st => if p =? NULL then (Crash, st) else (Ret (heap st p i), st).

Definition store (p : handle) (i : Z) (v : Z) : M unit :=
  fun st =>
    if p =? NULL then (Crash, st)
    else (Ret tt, set_heap (upd (heap st) p (upd (heap st p) i v)) st).

(** ** The kernel *)

(** Modelled from the spec: the kernel source [./vector_ops_ocl.cl] with its
    entry point [vector_add_ocl] is not part of the sources at hand.  The spec
    describes it as performing, for each index i in [0, N),
    [out[i] = a[i] + b[i]]; here as the action of the work-item with global
    id [gid], given the four bound arguments. *)
Definition vector_add_ocl (size : Z) (a b out : handle) (gid : Z) (m : devmem) : devmem :=
  if (0 <=? gid) && (gid <? size) then
    match m a, m b, m out with
    | Some va, Some vb, Some vo =>
        upd m out (Some (upd vo gid (add_int (va gid) (vb gid))))
    | _, _, _ => m
    end
  else m.

(** A one-dimensional launch: work-items 0 .. n-1. *)
Fixpoint ndrange (n : nat) (item : Z -> devmem -> devmem) (m : devmem) : devmem :=
  match n with
  | O => m
  | S k => item (Z.of_nat k) (ndrange k item m)
  end.

(** Copy of the first [n] elements of [src] over [dst]. *)
Definition blit (n : Z) (src dst : block) : block :=
  fun i => if (0 <=? i) && (i <? n) then src i else dst i.

(** An update that takes place only when [c] holds. *)
Definition upd_if {V : Type} (c : bool) (f : Z -> V) (k : Z) (v : V) : Z -> V :=
  fun x => if (x =? k) && c then v else f x.

Definition gupd_if (c : bool) (f : gvar -> Z) (g : gvar) (v : Z) : gvar -> Z :=
  fun x => if gvar_eqb x g && c then v else f x.

(** Device memory after a host-to-device transfer of [n] elements into the
    buffer [buf], when the transfer happens ([c]) and the buffer exists. *)
Definition dev_write (c : bool) (m : devmem) (buf : handle) (n : Z) (src : block) : devmem :=
  match m buf with
  | Some old => if c then upd m buf (Some (blit n src old)) else m
  | None => m
  end.

(** Host memory after a device-to-host transfer of [n] elements from the
    buffer [buf] to the pointer [dst]. *)
Definition host_read (c : bool) (h : handle -> block) (dst : handle) (n : Z)
  (m : devmem) (buf : handle) : handle -> block :=
  match m buf with
  | Some dev => if c then upd h dst (blit n dev (h dst)) else h
  | None => h
  end.

(** What a launch over [global] work-items does to device memory, when the
    four arguments are bound and the three buffers exist. *)
Definition launch (global : Z) (args : Z -> option Z) (m : devmem) : option devmem :=
  match args 0, args 1, args 2, args 3 with
  | Some n, Some a, Some b, Some o =>
      match m a, m b, m o with
      | Some _, Some _, Some _ =>
          Some (ndrange (Z.to_nat global) (vector_add_ocl n a b o) m)
      | _, _, _ => None
      end
  | _, _, _, _ => None
  end.

Definition can_launch (args : Z -> option Z) (m : devmem) : bool :=
  match launch 0 args m with Some _ => true | None => false end.

Definition dev_launch (c : bool) (global : Z) (args : Z -> option Z) (m : devmem) : devmem :=
  match launch global args m with
  | Some m' => if c then m' else m
  | None => m
  end.

Section Program.

Variable w : World.

(** ** The C library *)

Definition failed (s : site) : bool :=
  match w_fault w s with Some _ => true | None => false end.

(** The status an OpenCL call at site [s] reports when [ok] says whether its
    arguments are valid. *)
Definition status (s : site) (invalid : cl_int) (ok : bool) : cl_int :=
  match w_fault w s with
  | Some e => Z.neg e
  | None => if ok then CL_SUCCESS else invalid
  end.

(** The pointer or handle a creating call at site [s] returns when the next
    free one is [f]. *)
Definition new_handle (s : site) (f : positive) : handle :=
  if failed s then NULL else Z.pos f.

Definition malloc (s : site) (bytes : Z) : M handle :=
  fun st =>
    let p := new_handle s (fresh st) in
    (Ret p, log (Call_malloc bytes p) (set_fresh (Pos.succ (fresh st)) st)).

Definition free (p : handle) : M unit := emit (Call_free p).

Definition rand : M Z :=
  fun st => (Ret (w_rand w (nrand st)), set_nrand (S (nrand st)) st).

Definition fopen (name : string) : M handle :=
  fun st =>
    let f := new_handle at_fopen (fresh st) in
    (Ret f, log (Call_fopen name f) (set_fresh (Pos.succ (fresh st)) st)).

Definition now : M Z :=
  fun st =>
    let t := w_clock w (nclock st) in
    (Ret t, log (Call_now t) (set_nclock (S (nclock st)) st)).

(** ** The OpenCL platform: reference behaviour with scripted failures *)

Definition clGetPlatformIDs : M cl_int :=
  fun st =>
    let r := status at_clGetPlatformIDs CL_SUCCESS true in
    (Ret r, log (Call_clGetPlatformIDs r) st).

(** Returns the status and the device written through the out-pointer (the
    out-pointer is left alone on failure; the caller's local is then
    indeterminate, here [NULL]). *)
Definition clGetDeviceIDs (t : device_type) : M (cl_int * handle) :=
  fun st =>
    let r := status (at_clGetDeviceIDs t) CL_SUCCESS true in
    let d := new_handle (at_clGetDeviceIDs t) (fresh st) in
    (Ret (r, d), log (Call_clGetDeviceIDs t r) (set_fresh (Pos.succ (fresh st)) st)).

(** A creation call with an [errcode_ret] out-parameter: returns the handle
    and the code. *)
Definition create (s : site) (e : handle -> io) : M (handle * cl_int) :=
  fun st =>
    let h := new_handle s (fresh st) in
    (Ret (h, status s CL_SUCCESS true), log (e h) (set_fresh (Pos.succ (fresh st)) st)).

Definition clCreateContext (dev : handle) : M (handle * cl_int) :=
  create at_clCreateContext (Call_clCreateContext dev).

Definition clCreateProgramWithSource (ctx : handle) : M (handle * cl_int) :=
  create at_clCreateProgramWithSource (Call_clCreateProgramWithSource ctx).

Definition clCreateCommandQueueWithProperties (ctx dev : handle) : M (handle * cl_int) :=
  create at_clCreateCommandQueue (Call_clCreateCommandQueue ctx dev).

Definition clCreateKernel (prog : handle) (name : string) : M (handle * cl_int) :=
  create at_clCreateKernel (Call_clCreateKernel prog name).

Definition clBuildProgram (prog : handle) : M cl_int :=
  fun st =>
    let r := status at_clBuildProgram CL_SUCCESS true in
    (Ret r, log (Call_clBuildProgram prog r) st).

Definition is_buffer (m : devmem) (buf : handle) : bool :=
  match m buf with Some _ => true | None => false end.

Definition is_null (p : handle) : bool := p =? NULL.
Definition succeeded (r : cl_int) : bool := r =? CL_SUCCESS.

(** [clCreateBuffer (ctx, CL_MEM_READ_WRITE, bytes, NULL, NULL)]: no error
    code is requested; a failed creation returns [NULL]. *)
Definition clCreateBuffer (s : site) (ctx : handle) (bytes : Z) : M handle :=
  fun st =>
    let h := new_handle s (fresh st) in
    let m := upd_if (negb (failed s)) (dmem st) (Z.pos (fresh st)) (Some (fun _ => 0)) in
    (Ret h, log (Call_clCreateBuffer ctx bytes h) (set_dmem m (set_fresh (Pos.succ (fresh st)) st))).

(** Blocking write of [bytes] bytes from host memory at [src]. *)
Definition clEnqueueWriteBuffer (s : site) (q buf : handle) (bytes : Z) (src : handle)
  : M cl_int :=
  fun st =>
    let r := status s (if is_null src then CL_INVALID_VALUE else CL_INVALID_MEM_OBJECT)
               (negb (is_null src) && is_buffer (dmem st) buf) in
    let m := dev_write (negb (failed s) && negb (is_null src))
               (dmem st) buf (bytes / sizeof_int) (heap st src) in
    (Ret r, log (Call_clEnqueueWriteBuffer q buf bytes src r) (set_dmem m st)).

Definition clSetKernelArg (k : handle) (idx size value : Z) : M cl_int :=
  fun st =>
    let r := status (at_clSetKernelArg idx) CL_SUCCESS true in
    let a := upd_if (negb (failed (at_clSetKernelArg idx))) (kargs st) idx (Some value) in
    (Ret r, log (Call_clSetKernelArg k idx size value r) (set_kargs a st)).

(** [clEnqueueNDRangeKernel (q, k, 1, NULL, global, NULL, 0, NULL, &ev)] on an
    in-order queue; the event is written to the global [ev] on success only. *)
Definition clEnqueueNDRangeKernel (q k : handle) (global : Z) (ev : gvar) : M cl_int :=
  fun st =>
    let r := status at_clEnqueueNDRangeKernel CL_INVALID_KERNEL_ARGS
               (can_launch (kargs st) (dmem st)) in
    let m := dev_launch (negb (failed at_clEnqueueNDRangeKernel)) global (kargs st) (dmem st) in
    let g := gupd_if (succeeded r) (glob st) ev (Z.pos (fresh st)) in
    (Ret r, log (Call_clEnqueueNDRangeKernel q k global r)
              (set_glob g (set_dmem m (set_fresh (Pos.succ (fresh st)) st)))).

Definition clWaitForEvents (ev : handle) : M cl_int :=
  fun st =>
    let r := status at_clWaitForEvents CL_INVALID_EVENT (negb (is_null ev)) in
    (Ret r, log (Call_clWaitForEvents ev r) st).

(** Blocking read of [bytes] bytes into host memory at [dst]. *)
Definition clEnqueueReadBuffer (q buf : handle) (bytes : Z) (dst : handle) : M cl_int :=
  fun st =>
    let r := status at_clEnqueueReadBuffer
               (if is_null dst then CL_INVALID_VALUE else CL_INVALID_MEM_OBJECT)
               (negb (is_null dst) && is_buffer (dmem st) buf) in
    let h := host_read (negb (failed at_clEnqueueReadBuffer) && negb (is_null dst))
               (heap st) dst (bytes / sizeof_int) (dmem st) buf in
    (Ret r, log (Call_clEnqueueReadBuffer q buf bytes dst r) (set_heap h st)).

Definition clRelease (o : cl_object) (h : handle) : M unit :=
  emit (Call_clRelease o h).

Definition clReleaseMemObject := clRelease MemObject.
Definition clReleaseKernel := clRelease Kernel.
Definition clReleaseCommandQueue := clRelease CommandQueue.
Definition clReleaseProgram := clRelease Program.
Definition clReleaseContext := clRelease Context.

(** ** The program *)

Definition PRINT : Z := 1.

(** [void init (int *&A, int size)] *)
Definition init (A : gvar) (size : Z) : M unit :=
  p <- malloc (at_malloc A) (size_mul sizeof_int (to_size_t size)) ;;
  set A p ;;
  for_range 0 size (fun i =>
    r <- rand ;;
    a <- get A ;;
    store a i (Z.rem r 100)).

(** [void print (int *A, int size)] *)
Definition print (A : handle) (size : Z) : M unit :=
  if PRINT =? 0 then ret tt
  else
    (if (PRINT =? 1) && (15 <? size) then
       for_range 0 5 (fun i => x <- load A i ;; printf "%d " [AInt x]) ;;
       printf " ..... " [] ;;
       for_range (size - 5) size (fun i => x <- load A i ;; printf "%d " [AInt x])
     else
       for_range 0 size (fun i => x <- load A i ;; printf "%d " [AInt x])) ;;
    printf "
----------------------------
" [].

(** [void free_memory ()] *)
Definition free_memory : M unit :=
  b <- get bufV1 ;; clReleaseMemObject b ;;
  b <- get bufV2 ;; clReleaseMemObject b ;;
  b <- get bufV_out ;; clReleaseMemObject b ;;
  k <- get kernel ;; clReleaseKernel k ;;
  q <- get queue ;; clReleaseCommandQueue q ;;
  p <- get program ;; clReleaseProgram p ;;
  c <- get context ;; clReleaseContext c ;;
  a <- get v1 ;; free a ;;
  a <- get v2 ;; free a ;;
  a <- get v_out ;; free a.

(** [void copy_kernel_args ()]: the four statuses are dropped; the test reads
    the global [err]. *)
Definition copy_kernel_args : M unit :=
  k <- get kernel ;; n <- get SZ ;;
  clSetKernelArg k 0 sizeof_int n ;;
  k <- get kernel ;; b <- get bufV1 ;;
  clSetKernelArg k 1 8 b ;;
  k <- get kernel ;; b <- get bufV2 ;;
  clSetKernelArg k 2 8 b ;;
  k <- get kernel ;; b <- get bufV_out ;;
  clSetKernelArg k 3 8 b ;;
  e <- get err ;;
  if e <? 0 then
    perror "Couldn't create a kernel argument" ;;
    printf "error = %d" [AInt e] ;;
    exit 1
  else ret tt.

(** [void setup_kernel_memory ()] *)
Definition setup_kernel_memory : M unit :=
  c <- get context ;; n <- get SZ ;;
  b <- clCreateBuffer (at_clCreateBuffer bufV1) c (size_mul (to_size_t n) sizeof_int) ;;
  set bufV1 b ;;
  c <- get context ;; n <- get SZ ;;
  b <- clCreateBuffer (at_clCreateBuffer bufV2) c (size_mul (to_size_t n) sizeof_int) ;;
  set bufV2 b ;;
  c <- get context ;; n <- get SZ ;;
  b <- clCreateBuffer (at_clCreateBuffer bufV_out) c (size_mul (to_size_t n) sizeof_int) ;;
  set bufV_out b ;;
  q <- get queue ;; b <- get bufV1 ;; n <- get SZ ;; a <- get v1 ;;
  clEnqueueWriteBuffer (at_clEnqueueWriteBuffer bufV1) q b
    (size_mul (to_size_t n) sizeof_int) a ;;
  q <- get queue ;; b <- get bufV2 ;; n <- get SZ ;; a <- get v2 ;;
  clEnqueueWriteBuffer (at_clEnqueueWriteBuffer bufV2) q b
    (size_mul (to_size_t n) sizeof_int) a ;;
  ret tt.

(** [cl_device_id create_device ()] *)
Definition create_device : M handle :=
  e <- clGetPlatformIDs ;;
  if e <? 0 then
    perror "Couldn't identify a platform" ;; exit 1
  else
    r <- clGetDeviceIDs CL_DEVICE_TYPE_GPU ;;
    r' <- (if fst r =? CL_DEVICE_NOT_FOUND then
             printf "GPU not found
" [] ;;
             clGetDeviceIDs CL_DEVICE_TYPE_CPU
           else ret r) ;;
    if fst r' <? 0 then
      perror "Couldn't access any devices" ;; exit 1
    else ret (snd r').

(** [cl_program build_program (cl_context ctx, cl_device_id dev, const char *filename)].
    It has no local [err]: both assignments go to the global. *)
Definition build_program (ctx dev : handle) (filename : string) : M handle :=
  program_handle <- fopen filename ;;
  if program_handle =? NULL then
    perror "Couldn't find the program file" ;; exit 1
  else
    let program_size := Z.of_nat (String.length (w_source w)) in
    program_buffer <- malloc at_malloc_source (to_size_t (program_size + 1)) ;;
    store program_buffer program_size 0 ;;
    pe <- clCreateProgramWithSource ctx ;;
    set err (snd pe) ;;
    e <- get err ;;
    if e <? 0 then
      perror "Couldn't create the program" ;; exit 1
    else
      free program_buffer ;;
      e <- clBuildProgram (fst pe) ;;
      set err e ;;
      e <- get err ;;
      if e <? 0 then
        let log_size := Z.of_nat (String.length (w_build_log w)) in
        program_log <- malloc at_malloc_log (to_size_t (log_size + 1)) ;;
        store program_log log_size 0 ;;
        printf "%s
" [AStr (w_build_log w)] ;;
        free program_log ;;
        exit 1
      else ret (fst pe).

(** [void setup_openCL_device_context_queue_kernel (char *filename, char *kernelname)].
    Its [cl_int err] is a local that hides the global. *)
Definition setup_openCL_device_context_queue_kernel (filename kernelname : string)
  : M unit :=
  d <- create_device ;;
  set device_id d ;;
  d <- get device_id ;;
  ce <- clCreateContext d ;;
  set context (fst ce) ;;
  if snd ce <? 0 then
    perror "Couldn't create a context" ;; exit 1
  else
    c <- get context ;; d <- get device_id ;;
    p <- build_program c d filename ;;
    set program p ;;
    c <- get context ;; d <- get device_id ;;
    qe <- clCreateCommandQueueWithProperties c d ;;
    set queue (fst qe) ;;
    if snd qe <? 0 then
      perror "Couldn't create a command queue" ;; exit 1
    else
      p <- get program ;;
      ke <- clCreateKernel p kernelname ;;
      set kernel (fst ke) ;;
      if snd ke <? 0 then
        perror "Couldn't create a kernel" ;;
        printf "error =%d" [AInt (snd ke)] ;;
        exit 1
      else ret tt.

(** Lines 32-38 of [main]: the optional size argument and the three host
    vectors. *)
Definition main_init (argv : list string) : M unit :=
  (if 1 <? Z.of_nat (List.length argv)
   then set SZ (atoi (nth 1%nat argv EmptyString))
   else ret tt) ;;
  n <- get SZ ;; init v1 n ;;
  n <- get SZ ;; init v2 n ;;
  n <- get SZ ;; init v_out n.

(** The duration [stop - start] as [double] milliseconds. *)
Definition millis (start stop : Z) : Q := Qmake (stop - start) 1000000.

(** Lines 40-64 of [main]. *)
Definition main_compute : M unit :=
  n <- get SZ ;;
  let global := to_size_t n in
  a <- get v1 ;; n <- get SZ ;; print a n ;;
  a <- get v2 ;; n <- get SZ ;; print a n ;;
  setup_openCL_device_context_queue_kernel "./vector_ops_ocl.cl" "vector_add_ocl" ;;
  setup_kernel_memory ;;
  copy_kernel_args ;;
  start <- now ;;
  q <- get queue ;; k <- get kernel ;;
  clEnqueueNDRangeKernel q k global event ;;
  ev <- get event ;;
  clWaitForEvents ev ;;
  q <- get queue ;; b <- get bufV_out ;; n <- get SZ ;; a <- get v_out ;;
  clEnqueueReadBuffer q b (size_mul (to_size_t n) sizeof_int) a ;;
  a <- get v_out ;; n <- get SZ ;; print a n ;;
  stop <- now ;;
  printf "Kernel Execution Time: %f ms
" [ADouble (millis start stop)] ;;
  free_memory.

(** [int main (int argc, char **argv)] *)
Definition main (argv : list string) : M unit :=
  main_init argv ;; main_compute.

End Program.

(** How the process ends: falling off the end of [main] is [exit (0)]. *)
Inductive termination := Exited (code : Z) | Crashed.

Definition termination_of {A} (o : outcome A) : termination :=
  match o with
  | Ret _ => Exited 0
  | Exit c => Exited c
  | Crash => Crashed
  end.

(** A run of the program in world [w] with command line [argv]. *)
Definition run (w : World) (argv : list string) : termination * St :=
  let r := main w argv initial in (termination_of (fst r), snd r).

Definition exit_status (w : World) (argv : list string) : termination := fst (run w argv).
Definition events (w : World) (argv : list string) : list io := trace (snd (run w argv)).
Definition final (w : World) (argv : list string) : St := snd (run w argv).

(** ** Test doubles *)

Definition no_fault : site -> option positive := fun _ => None.

(** A platform on which every call succeeds; [rand] yields 0, 7, 14, ... and
    the clock advances by 1.5 ms per reading. *)
Definition ideal : World :=
  {| w_fault := no_fault;
     w_rand := fun k => Z.of_nat k * 7;
     w_clock := fun k => 1000 + Z.of_nat k * 1500000;
     w_source := "__kernel void vector_add_ocl(...)";
     w_build_log := "" |}.

Definition with_fault (f : site -> option positive) (w : World) : World :=
  {| w_fault := f; w_rand := w_rand w; w_clock := w_clock w;
     w_source := w_source w; w_build_log := w_build_log w |}.

(** Binding kernel argument 0 fails with [CL_INVALID_ARG_SIZE] (-51). *)
Definition binding_fails : World :=
  with_fault (fun s => match s with
                       | at_clSetKernelArg 0 => Some 51%positive
                       | _ => None
                       end) ideal.

(** The device is out of memory for the first buffer
    ([CL_MEM_OBJECT_ALLOCATION_FAILURE], -4), and the second upload fails
    ([CL_OUT_OF_RESOURCES], -5). *)
Definition memory_fails : World :=
  with_fault (fun s => match s with
                       | at_clCreateBuffer bufV1 => Some 4%positive
                       | at_clEnqueueWriteBuffer bufV2 => Some 5%positive
                       | _ => None
                       end) ideal.

(** The kernel source file cannot be opened. *)
Definition no_source : World :=
  with_fault (fun s => match s with at_fopen => Some 2%positive | _ => None end) ideal.

(** A host heap for examples: element [i] behind pointer [p] is [10 p + i]. *)
Definition sample_heap : handle -> block := fun p i => 10 * p + i.

(** Globals with the size set to [n], as after [main] read its argument. *)
Definition sized (n : Z) : gvar -> Z := gupd (glob initial) SZ n.

(** ** What a vector looks like on the console *)

(** [n] consecutive elements of a memory block, from index [lo]. *)
Definition slice (m : block) (lo : Z) (n : nat) : list Z :=
  map (fun k => m (lo + Z.of_nat k)) (seq 0 n).

(** The [size] elements behind a pointer (none when [size <= 0]). *)
Definition vector (m : block) (size : Z) : list Z := slice m 0 (Z.to_nat size).

Definition elt (x : Z) : io := Printf "%d " [AInt x].
Definition ellipsis : io := Printf " ..... " [].
Definition separator : io := Printf "
----------------------------
" [].

(** The console form of a vector, in the words of the spec: the first 5 and
    last 5 elements joined by the ellipsis marker when the length exceeds 15,
    else all elements; then the separator line. *)
Definition printed (v : list Z) : list io :=
  (if 15 <? Z.of_nat (List.length v)
   then map elt (firstn 5 v) ++ [ellipsis] ++ map elt (skipn (List.length v - 5) v)
   else map elt v) ++ [separator].

(** Several trace entries at once. *)
Definition logs (evs : list io) (st : St) : St :=
  {| glob := glob st; heap := heap st; dmem := dmem st; kargs := kargs st;
     fresh := fresh st; nrand := nrand st; nclock := nclock st;
     trace := trace st ++ evs |}.

(** The heap after [n] rounds of [A[i] = rand () % 100], from index [i] and
    the [k]-th random number on, through the pointer [p]. *)
Fixpoint fill (w : World) (n : nat) (i : Z) (k : nat) (p : handle)
  (h : handle -> block) : handle -> block :=
  match n with
  | O => h
  | S n' => fill w n' (i + 1) (S k) p (upd h p (upd (h p) i (Z.rem (w_rand w k) 100)))
  end.

(** The state [init] leaves behind when it returns. *)
Definition after_init (w : World) (A : gvar) (size : Z) (st : St) : St :=
  let p := new_handle w (at_malloc A) (fresh st) in
  {| glob := gupd (glob st) A p;
     heap := fill w (Z.to_nat size) 0 (nrand st) p (heap st);
     dmem := dmem st; kargs := kargs st;
     fresh := Pos.succ (fresh st);
     nrand := (nrand st + Z.to_nat size)%nat;
     nclock := nclock st;
     trace := trace st ++ [Call_malloc (size_mul sizeof_int (to_size_t size)) p] |}.

(** ** Situations of a run *)

(** The vector length [main] works with: [atoi (argv[1])] when an argument is
    given, else the initial value of [SZ]. *)
Definition size_arg (argv : list string) : Z :=
  if 1 <? Z.of_nat (List.length argv)
  then atoi (nth 1%nat argv EmptyString)
  else 100000000.

(** The three host allocations succeed, or there is nothing to write. *)
Definition hosts_ok (w : World) (n : Z) : bool :=
  (n <=? 0)
  || negb (failed w (at_malloc v1) || failed w (at_malloc v2) || failed w (at_malloc v_out)).

(** The GPU request reports exactly [CL_DEVICE_NOT_FOUND]. *)
Definition gpu_not_found (w : World) : bool :=
  match w_fault w (at_clGetDeviceIDs CL_DEVICE_TYPE_GPU) with
  | Some 1%positive => true
  | _ => false
  end.

(** Device selection ends with a device. *)
Definition device_found (w : World) : bool :=
  negb (failed w (at_clGetDeviceIDs CL_DEVICE_TYPE_GPU))
  || (gpu_not_found w && negb (failed w (at_clGetDeviceIDs CL_DEVICE_TYPE_CPU))).

(** Every step of [setup_openCL_device_context_queue_kernel] succeeds. *)
Definition setup_ok (w : World) : bool :=
  negb (failed w at_clGetPlatformIDs)
  && device_found w
  && negb (failed w at_clCreateContext)
  && negb (failed w at_fopen)
  && negb (failed w at_malloc_source)
  && negb (failed w at_clCreateProgramWithSource)
  && negb (failed w at_clBuildProgram)
  && negb (failed w at_clCreateCommandQueue)
  && negb (failed w at_clCreateKernel).

(** The three host vectors are allocated. *)
Definition hosts_allocated (w : World) : bool :=
  negb (failed w (at_malloc v1) || failed w (at_malloc v2) || failed w (at_malloc v_out)).

(** An allocation of a device buffer or a host-to-device transfer fails. *)
Definition memory_fault (w : World) : bool :=
  failed w (at_clCreateBuffer bufV1) || failed w (at_clCreateBuffer bufV2)
  || failed w (at_clCreateBuffer bufV_out)
  || failed w (at_clEnqueueWriteBuffer bufV1) || failed w (at_clEnqueueWriteBuffer bufV2).

(** The three device buffers are created. *)
Definition buffers_ok (w : World) : bool :=
  negb (failed w (at_clCreateBuffer bufV1) || failed w (at_clCreateBuffer bufV2)
        || failed w (at_clCreateBuffer bufV_out)).

(** No call fails at all. *)
Definition fault_free (w : World) : Prop := forall s, w_fault w s = None.

(** The state at line 40 of [main]: globals [g0] (with the size in [SZ]), on
    top of them the three host vectors behind [p1], [p2], [p3] in the heap
    [H]; [k] random numbers drawn, trace [T]. *)
Definition loaded (g0 : gvar -> Z) (p1 p2 p3 : handle) (H : handle -> block) (k : nat)
  (T : list io) : St :=
  {| glob := gupd (gupd (gupd g0 v1 p1) v2 p2) v_out p3;
     heap := H;
     dmem := fun _ => None;
     kargs := fun _ => None;
     fresh := 4%positive;
     nrand := k;
     nclock := O;
     trace := T |}.

(** The globals once the command line is read. *)
Definition args_globals (argv : list string) : gvar -> Z :=
  if 1 <? Z.of_nat (List.length argv)
  then gupd (glob initial) SZ (atoi (nth 1%nat argv EmptyString))
  else glob initial.

(** The pointer to the host vector [g]: the [k]-th allocation of the run. *)
Definition host_ptr (w : World) (g : gvar) : handle :=
  new_handle w (at_malloc g)
    match g with v1 => 1%positive | v2 => 2%positive | _ => 3%positive end.

(** Host memory once the three vectors of length [n] are initialised. *)
Definition host_heap (w : World) (n : Z) : handle -> block :=
  let m := Z.to_nat n in
  fill w m 0 (0 + m + m) (host_ptr w v_out)
    (fill w m 0 (0 + m) (host_ptr w v2)
       (fill w m 0 0 (host_ptr w v1) (heap initial))).

Definition init_trace (w : World) (n : Z) : list io :=
  [Call_malloc (size_mul sizeof_int (to_size_t n)) (host_ptr w v1);
   Call_malloc (size_mul sizeof_int (to_size_t n)) (host_ptr w v2);
   Call_malloc (size_mul sizeof_int (to_size_t n)) (host_ptr w v_out)].

(** The state in which lines 32-38 of [main] leave the process. *)
Definition after_main_init (w : World) (argv : list string) : St :=
  let n := size_arg argv in
  loaded (args_globals argv) (host_ptr w v1) (host_ptr w v2) (host_ptr w v_out)
    (host_heap w n) (0 + Z.to_nat n + Z.to_nat n + Z.to_nat n) (init_trace w n).

(** What device selection adds to the trace, and the handle of the device. *)
Definition selection (w : World) : list io * positive :=
  if gpu_not_found w
  then ([Call_clGetDeviceIDs CL_DEVICE_TYPE_GPU CL_DEVICE_NOT_FOUND;
         Printf "GPU not found
" [];
         Call_clGetDeviceIDs CL_DEVICE_TYPE_CPU CL_SUCCESS], 5%positive)
  else ([Call_clGetDeviceIDs CL_DEVICE_TYPE_GPU CL_SUCCESS], 4%positive).

(** ** Observations on a trace *)

(** The mock resource tracker: handles that creating calls returned (a null
    handle is a failed creation), and handles passed to releasing calls. *)
Definition created_by (e : io) : list handle :=
  match e with
  | Call_malloc _ h
  | Call_clCreateContext _ h
  | Call_clCreateProgramWithSource _ h
  | Call_clCreateCommandQueue _ _ h
  | Call_clCreateKernel _ _ h
  | Call_clCreateBuffer _ _ h => if h =? NULL then [] else [h]
  | _ => []
  end.

Definition released_by (e : io) : list handle :=
  match e with
  | Call_free h => [h]
  | Call_clRelease _ h => [h]
  | _ => []
  end.

Definition created (tr : list io) : list handle := flat_map created_by tr.
Definition released (tr : list io) : list handle := flat_map released_by tr.

(** The two halves of the teardown property on a trace: every resource that
    was created is released exactly once, and nothing is released that was
    not created. *)
Definition releases_each_once (tr : list io) : Prop :=
  forall h, In h (created tr) -> count_occ Z.eq_dec (released tr) h = 1%nat.

Definition releases_only_created (tr : list io) : Prop :=
  forall h, In h (released tr) -> In h (created tr).

Definition is_clRelease (e : io) : bool :=
  match e with Call_clRelease _ _ => true | _ => false end.

Definition is_clock (e : io) : bool :=
  match e with Call_now _ => true | _ => false end.

Definition is_console (e : io) : bool :=
  match e with Printf _ _ => true | _ => false end.

(** What is written to standard output, in order. *)
Definition stdout (tr : list io) : list io := filter is_console tr.

(** The device types requested, in order. *)
Definition device_requests (tr : list io) : list device_type :=
  flat_map (fun e => match e with Call_clGetDeviceIDs t _ => [t] | _ => [] end) tr.

(** What a run that stops inside set-up leaves in the trace: no [clRelease*]
    call at all, and [free] only of a temporary buffer that [build_program]
    itself allocated after the host vectors and the context. *)
Definition quiet (evs : list io) : Prop :=
  filter is_clRelease evs = []
  /\ forall h, In h (released evs) ->
       5 <= h /\ In h (created evs) /\ count_occ Z.eq_dec (released evs) h = 1%nat.

(** Byte sizes asked of [clCreateBuffer] and of [malloc], global work sizes
    of the launches, statuses of the argument bindings, and the diagnostics
    written with [perror]. *)
Definition buffer_sizes (tr : list io) : list Z :=
  flat_map (fun e => match e with Call_clCreateBuffer _ b _ => [b] | _ => [] end) tr.

Definition malloc_sizes (tr : list io) : list Z :=
  flat_map (fun e => match e with Call_malloc b _ => [b] | _ => [] end) tr.

Definition launch_sizes (tr : list io) : list Z :=
  flat_map (fun e => match e with Call_clEnqueueNDRangeKernel _ _ g _ => [g] | _ => [] end) tr.

Definition binding_statuses (tr : list io) : list (Z * cl_int) :=
  flat_map (fun e => match e with Call_clSetKernelArg _ i _ _ r => [(i, r)] | _ => [] end) tr.

Definition transfer_statuses (tr : list io) : list cl_int :=
  flat_map (fun e => match e with
                     | Call_clEnqueueWriteBuffer _ _ _ _ r => [r]
                     | _ => []
                     end) tr.

Definition diagnostics (tr : list io) : list string :=
  flat_map (fun e => match e with Perror msg => [msg] | _ => [] end) tr.

Fixpoint until_clock (tr : list io) : list io :=
  match tr with
  | [] => []
  | e :: r => if is_clock e then [] else e :: until_clock r
  end.

Fixpoint after_clock (tr : list io) : list io :=
  match tr with
  | [] => []
  | e :: r => if is_clock e then r else after_clock r
  end.

(** The measurement window: what happens between the first reading of the
    clock ([start]) and the next ([stop]). *)
Definition timed_window (tr : list io) : list io := until_clock (after_clock tr).

(** The statuses of the calls whose result the program never looks at, and
    the event handle the launch leaves in [event]. *)
Record Codes := {
  r_write1 : cl_int; r_write2 : cl_int;
  r_arg0 : cl_int; r_arg1 : cl_int; r_arg2 : cl_int; r_arg3 : cl_int;
  r_launch : cl_int; r_event : handle; r_wait : cl_int; r_read : cl_int
}.

(** [r] is what the call at site [s] reported. *)
Definition reported (w : World) (s : site) (r : cl_int) : Prop :=
  exists invalid ok, r = status w s invalid ok.

Definition codes_reported (w : World) (c : Codes) : Prop :=
  reported w (at_clEnqueueWriteBuffer bufV1) (r_write1 c)
  /\ reported w (at_clEnqueueWriteBuffer bufV2) (r_write2 c)
  /\ reported w (at_clSetKernelArg 0) (r_arg0 c)
  /\ reported w (at_clSetKernelArg 1) (r_arg1 c)
  /\ reported w (at_clSetKernelArg 2) (r_arg2 c)
  /\ reported w (at_clSetKernelArg 3) (r_arg3 c)
  /\ reported w at_clEnqueueNDRangeKernel (r_launch c)
  /\ reported w at_clWaitForEvents (r_wait c)
  /\ reported w at_clEnqueueReadBuffer (r_read c).

(** The trace of lines 40-64 of [main] when set-up succeeds: the vectors
    [V1], [V2] and [Vout] are printed, the buffer handles are whatever the
    three creations returned, the unchecked statuses are [c]. *)
Definition success_trace (w : World) (n : Z) (p1 p2 p3 : handle)
  (V1 V2 Vout : list Z) (c : Codes) : list io :=
  let d := snd (selection w) in
  let dev := Z.pos d in
  let ctx := Z.pos (d + 1) in
  let prog := Z.pos (d + 4) in
  let q := Z.pos (d + 5) in
  let k := Z.pos (d + 6) in
  let b1 := new_handle w (at_clCreateBuffer bufV1) (d + 7) in
  let b2 := new_handle w (at_clCreateBuffer bufV2) (d + 8) in
  let b3 := new_handle w (at_clCreateBuffer bufV_out) (d + 9) in
  let bytes := size_mul (to_size_t n) sizeof_int in
  printed V1 ++ printed V2 ++
  [Call_clGetPlatformIDs CL_SUCCESS] ++ fst (selection w) ++
  [Call_clCreateContext dev ctx;
   Call_fopen "./vector_ops_ocl.cl" (Z.pos (d + 2));
   Call_malloc (to_size_t (Z.of_nat (String.length (w_source w)) + 1)) (Z.pos (d + 3));
   Call_clCreateProgramWithSource ctx prog;
   Call_free (Z.pos (d + 3));
   Call_clBuildProgram prog CL_SUCCESS;
   Call_clCreateCommandQueue ctx dev q;
   Call_clCreateKernel prog "vector_add_ocl" k;
   Call_clCreateBuffer ctx bytes b1;
   Call_clCreateBuffer ctx bytes b2;
   Call_clCreateBuffer ctx bytes b3;
   Call_clEnqueueWriteBuffer q b1 bytes p1 (r_write1 c);
   Call_clEnqueueWriteBuffer q b2 bytes p2 (r_write2 c);
   Call_clSetKernelArg k 0 sizeof_int n (r_arg0 c);
   Call_clSetKernelArg k 1 8 b1 (r_arg1 c);
   Call_clSetKernelArg k 2 8 b2 (r_arg2 c);
   Call_clSetKernelArg k 3 8 b3 (r_arg3 c);
   Call_now (w_clock w 0);
   Call_clEnqueueNDRangeKernel q k (to_size_t n) (r_launch c);
   Call_clWaitForEvents (r_event c) (r_wait c);
   Call_clEnqueueReadBuffer q b3 bytes p3 (r_read c)] ++
  printed Vout ++
  [Call_now (w_clock w 1);
   Printf "Kernel Execution Time: %f ms
" [ADouble (millis (w_clock w 0) (w_clock w 1))];
   Call_clRelease MemObject b1;
   Call_clRelease MemObject b2;
   Call_clRelease MemObject b3;
   Call_clRelease Kernel k;
   Call_clRelease CommandQueue q;
   Call_clRelease Program prog;
   Call_clRelease Context ctx;
   Call_free p1; Call_free p2; Call_free p3].

(** ** More observations *)

(** What a computation adds to the trace of the state it starts in. *)
Definition emitted {A : Type} (m : M A) (st : St) : list io :=
  skipn (List.length (trace st)) (trace (snd (m st))).


(** The values bound to kernel argument 0, the vector length. *)
Definition size_bindings (tr : list io) : list Z :=
  flat_map (fun e => match e with
                     | Call_clSetKernelArg _ i _ v _ => if i =? 0 then [v] else []
                     | _ => []
                     end) tr.

(** Decimal notation: the character of a digit, the string of a sequence of
    digits (most significant first), and the number it denotes. *)
Definition is_digit (d : Z) : Prop := 0 <= d <= 9.

Definition digit_char (d : Z) : ascii := ascii_of_nat (Z.to_nat (48 + d)).

Fixpoint numeral (ds : list Z) : string :=
  match ds with
  | [] => EmptyString
  | d :: r => String (digit_char d) (numeral r)
  end.

Definition decimal_value (ds : list Z) : Z := fold_left (fun a d => a * 10 + d) ds 0.

(** The four calls of [copy_kernel_args] on the globals [g], with the
    statuses the platform reports. *)
Definition bindings (w : World) (g : gvar -> Z) : list io :=
  [Call_clSetKernelArg (g kernel) 0 sizeof_int (g SZ)
     (status w (at_clSetKernelArg 0) CL_SUCCESS true);
   Call_clSetKernelArg (g kernel) 1 8 (g bufV1)
     (status w (at_clSetKernelArg 1) CL_SUCCESS true);
   Call_clSetKernelArg (g kernel) 2 8 (g bufV2)
     (status w (at_clSetKernelArg 2) CL_SUCCESS true);
   Call_clSetKernelArg (g kernel) 3 8 (g bufV_out)
     (status w (at_clSetKernelArg 3) CL_SUCCESS true)].

(** The value [copy_kernel_args] passes for the argument of index [i]. *)
Definition bound_value (g : gvar -> Z) (i : Z) : Z :=
  if i =? 0 then g SZ else if i =? 1 then g bufV1
  else if i =? 2 then g bufV2 else g bufV_out.

(** Every step of [build_program] succeeds. *)
Definition build_ok (w : World) : bool :=
  negb (failed w at_fopen)
  && negb (failed w at_malloc_source)
  && negb (failed w at_clCreateProgramWithSource)
  && negb (failed w at_clBuildProgram).

(** [build_program] stores through a null pointer: the source buffer could
    not be allocated, or the build failed and the buffer for its log could
    not be allocated. *)
Definition build_crashes (w : World) : bool :=
  negb (failed w at_fopen)
  && (failed w at_malloc_source
      || (negb (failed w at_clCreateProgramWithSource)
          && failed w at_clBuildProgram && failed w at_malloc_log)).

(** The diagnostic set-up writes with [perror]: that of the first step that
    fails, in the order of the calls.  The two allocations of [build_program]
    and the build itself have none. *)
Definition setup_diagnostic (w : World) : list string :=
  if failed w at_clGetPlatformIDs then ["Couldn't identify a platform"%string]
  else if negb (device_found w) then ["Couldn't access any devices"%string]
  else if failed w at_clCreateContext then ["Couldn't create a context"%string]
  else if failed w at_fopen then ["Couldn't find the program file"%string]
  else if failed w at_malloc_source then []
  else if failed w at_clCreateProgramWithSource then ["Couldn't create the program"%string]
  else if failed w at_clBuildProgram then []
  else if failed w at_clCreateCommandQueue then ["Couldn't create a command queue"%string]
  else if failed w at_clCreateKernel then ["Couldn't create a kernel"%string]
  else [].

(** Set-up reaches [build_program], which crashes. *)
Definition setup_crashes (w : World) : bool :=
  negb (failed w at_clGetPlatformIDs) && device_found w
  && negb (failed w at_clCreateContext) && build_crashes w.

(** Calls of the stages after set-up: buffers, transfers, argument bindings,
    the launch, the wait, the clock and the releases. *)
Definition device_stage (e : io) : bool :=
  match e with
  | Call_clCreateBuffer _ _ _ | Call_clEnqueueWriteBuffer _ _ _ _ _
  | Call_clSetKernelArg _ _ _ _ _ | Call_clEnqueueNDRangeKernel _ _ _ _
  | Call_clWaitForEvents _ _ | Call_clEnqueueReadBuffer _ _ _ _ _
  | Call_clRelease _ _ | Call_now _ => true
  | _ => false
  end.

(** The globals set-up leaves alone. *)
Definition data_globals : list gvar :=
  [SZ; v1; v2; v_out; bufV1; bufV2; bufV_out; event].

(** The launch and the wait for its event. *)
Definition is_sync (e : io) : bool :=
  match e with
  | Call_clEnqueueNDRangeKernel _ _ _ _ | Call_clWaitForEvents _ _ => true
  | _ => false
  end.

(** The read-back of the result fails with [CL_OUT_OF_RESOURCES] (-5). *)
Definition read_fails : World :=
  with_fault (fun s => match s with
                       | at_clEnqueueReadBuffer => Some 5%positive
                       | _ => None
                       end) ideal.

(** The launch fails with [CL_OUT_OF_RESOURCES] (-5). *)
Definition launch_fails : World :=
  with_fault (fun s => match s with
                       | at_clEnqueueNDRangeKernel => Some 5%positive
                       | _ => None
                       end) ideal.

(** The build of the kernel source fails with [CL_BUILD_PROGRAM_FAILURE]
    (-11). *)
Definition build_fails : World :=
  with_fault (fun s => match s with
                       | at_clBuildProgram => Some 11%positive
                       | _ => None
                       end) ideal.

(** A state for examples: size 3, the three host vectors behind the pointers
    1, 2 and 3 in [sample_heap]. *)
Definition sample_state : St := loaded (sized 3) 1 2 3 sample_heap 0 [].

(** * Proofs *)

Lemma logs_nil st : logs [] st = st.
Proof. destruct st; unfold logs; cbn. now rewrite app_nil_r. Qed.

Lemma log_is_logs e st : log e st = logs [e] st.
Proof. reflexivity. Qed.

Lemma logs_logs a b st : logs b (logs a st) = logs (a ++ b) st.
Proof. unfold logs; cbn. now rewrite app_assoc. Qed.

Lemma slice_length m lo n : List.length (slice m lo n) = n.
Proof. unfold slice. now rewrite length_map, length_seq. Qed.

Lemma slice_S m lo n : slice m lo (S n) = m lo :: slice m (lo + 1) n.
Proof.
  unfold slice. cbn [seq map]. rewrite Z.add_0_r. f_equal.
  rewrite <- seq_shift, map_map. apply map_ext. intros k. f_equal. lia.
Qed.

Lemma firstn_slice m lo n k : (k <= n)%nat -> firstn k (slice m lo n) = slice m lo k.
Proof.
  revert lo n. induction k as [|k IH]; intros lo n H; [reflexivity|].
  destruct n as [|n]; [lia|].
  rewrite !slice_S. cbn [firstn]. f_equal. apply IH. lia.
Qed.

Lemma skipn_slice m lo n k :
  (k <= n)%nat -> skipn k (slice m lo n) = slice m (lo + Z.of_nat k) (n - k).
Proof.
  revert lo n. induction k as [|k IH]; intros lo n H.
  - cbn [skipn]. rewrite Nat.sub_0_r. f_equal. cbn. lia.
  - destruct n as [|n]; [lia|].
    rewrite slice_S. cbn [skipn]. rewrite IH by lia.
    replace (S n - S k)%nat with (n - k)%nat by lia. f_equal. lia.
Qed.

(** *** Console printing *)

Lemma print_loop A n : forall i st,
  A <> NULL \/ n = O ->
  for_loop n i (fun i => x <- load A i ;; printf "%d " [AInt x]) st
  = (Ret tt, logs (map elt (slice (heap st A) i n)) st).
Proof.
  induction n as [|n IH]; intros i st H.
  - cbn. now rewrite logs_nil.
  - destruct H as [H|H]; [|discriminate].
    rewrite slice_S. cbn [for_loop map].
    unfold bind at 1. unfold bind at 1. unfold load at 1.
    destruct (A =? NULL) eqn:E; [apply Z.eqb_eq in E; contradiction|].
    unfold printf at 1, emit at 1. rewrite IH by now left.
    rewrite log_is_logs, logs_logs. reflexivity.
Qed.

Lemma printed_vector m size :
  printed (vector m size)
  = (if 15 <? size
     then map elt (slice m 0 5) ++ [ellipsis] ++ map elt (slice m (size - 5) 5)
     else map elt (vector m size)) ++ [separator].
Proof.
  unfold printed, vector. rewrite slice_length.
  destruct (15 <? size) eqn:E.
  - apply Z.ltb_lt in E.
    replace (15 <? Z.of_nat (Z.to_nat size)) with true by (symmetry; apply Z.ltb_lt; lia).
    rewrite firstn_slice by lia. rewrite skipn_slice by lia.
    replace (Z.to_nat size - (Z.to_nat size - 5))%nat with 5%nat by lia.
    replace (0 + Z.of_nat (Z.to_nat size - 5)) with (size - 5) by lia.
    reflexivity.
  - apply Z.ltb_ge in E.
    replace (15 <? Z.of_nat (Z.to_nat size)) with false by (symmetry; apply Z.ltb_ge; lia).
    reflexivity.
Qed.

(** [print] never fails on a vector that is there (or empty): it appends the
    console form of the vector and changes nothing else. *)
Lemma print_spec A size st :
  A <> NULL \/ size <= 0 ->
  print A size st = (Ret tt, logs (printed (vector (heap st A) size)) st).
Proof.
  intros H. rewrite printed_vector. unfold print, PRINT, for_range.
  cbn [Z.eqb andb Pos.eqb].
  destruct (15 <? size) eqn:E.
  - apply Z.ltb_lt in E. destruct H as [H|H]; [|lia].
    replace (Z.to_nat (5 - 0)) with 5%nat by reflexivity.
    replace (Z.to_nat (size - (size - 5))) with 5%nat by lia.
    unfold bind at 1. unfold bind at 1. rewrite print_loop by now left.
    unfold bind at 1. unfold printf at 1, emit at 1.
    rewrite print_loop by now left.
    unfold printf, emit. cbn [heap log logs].
    rewrite !log_is_logs, !logs_logs. rewrite <- !app_assoc. reflexivity.
  - apply Z.ltb_ge in E. unfold bind at 1. rewrite Z.sub_0_r.
    rewrite print_loop by (destruct H; [now left | right; lia]).
    unfold printf, emit. rewrite log_is_logs, logs_logs. reflexivity.
Qed.

(** *** Random initialisation *)

Lemma gupd_same f g v : gupd f g v g = v.
Proof. unfold gupd. now destruct g. Qed.

Lemma upd_same {V} (f : Z -> V) k v : upd f k v k = v.
Proof. unfold upd. now rewrite Z.eqb_refl. Qed.

Lemma upd_other {V} (f : Z -> V) k v x : x <> k -> upd f k v x = f x.
Proof. unfold upd. intros H. apply Z.eqb_neq in H. now rewrite H. Qed.

Lemma init_loop w A n : forall i st,
  glob st A <> NULL \/ n = O ->
  for_loop n i (fun i => r <- rand w ;; a <- get A ;; store a i (Z.rem r 100)) st
  = (Ret tt,
     {| glob := glob st;
        heap := fill w n i (nrand st) (glob st A) (heap st);
        dmem := dmem st; kargs := kargs st; fresh := fresh st;
        nrand := (nrand st + n)%nat; nclock := nclock st; trace := trace st |}).
Proof.
  induction n as [|n IH]; intros i st H.
  - cbn. rewrite Nat.add_0_r. now destruct st.
  - destruct H as [H|H]; [|discriminate].
    cbn [for_loop fill]. unfold bind at 1. unfold bind at 1. unfold rand at 1.
    unfold bind at 1. unfold get at 1. unfold store at 1.
    cbn [glob set_nrand heap].
    destruct (glob st A =? NULL) eqn:E; [apply Z.eqb_eq in E; contradiction|].
    rewrite IH by (now left). cbn. do 2 f_equal. lia.
Qed.

Ltac zcases :=
  repeat (match goal with
          | |- context [?a =? ?b] => destruct (Z.eqb_spec a b)
          | |- context [?a <=? ?b] => destruct (Z.leb_spec a b)
          | |- context [?a <? ?b] => destruct (Z.ltb_spec a b)
          end; cbn [andb orb negb]).

Lemma fill_at w n : forall i k p h q j,
  fill w n i k p h q j
  = if (q =? p) && (i <=? j) && (j <? i + Z.of_nat n)
    then Z.rem (w_rand w (k + Z.to_nat (j - i))) 100
    else h q j.
Proof.
  induction n as [|n IH]; intros i k p h q j.
  - cbn [fill]. zcases; try reflexivity; lia.
  - cbn [fill]. rewrite IH. unfold upd.
    zcases; try reflexivity; try lia.
    all: f_equal; f_equal; lia.
Qed.

(** [init] returns unless the allocation failed and there is something to
    write. *)
Lemma init_spec w A size st :
  new_handle w (at_malloc A) (fresh st) <> NULL \/ size <= 0 ->
  init w A size st = (Ret tt, after_init w A size st).
Proof.
  intros H. unfold init, for_range.
  unfold bind at 1. unfold malloc at 1. unfold bind at 1. unfold set at 1.
  rewrite init_loop.
  - cbn. rewrite gupd_same, Z.sub_0_r. reflexivity.
  - cbn. rewrite gupd_same. destruct H as [H|H]; [now left|right].
    rewrite Z.sub_0_r. lia.
Qed.

Lemma init_crash w A size st :
  new_handle w (at_malloc A) (fresh st) = NULL -> 0 < size ->
  exists st', init w A size st = (Crash, st')
    /\ trace st' = trace st ++ [Call_malloc (size_mul sizeof_int (to_size_t size)) NULL].
Proof.
  intros H Hs. unfold init, for_range.
  unfold bind at 1. unfold malloc at 1. unfold bind at 1. unfold set at 1.
  rewrite H. rewrite Z.sub_0_r.
  destruct (Z.to_nat size) as [|n] eqn:En; [lia|].
  cbn [for_loop]. unfold bind at 1. unfold bind at 1. unfold rand at 1.
  unfold bind at 1. unfold get at 1. unfold store at 1. cbn [glob set_nrand set_glob].
  rewrite gupd_same. cbn [Z.eqb NULL]. eexists. split; [reflexivity|]. reflexivity.
Qed.

(** *** Symbolic execution *)

Lemma failed_None w s : w_fault w s = None -> failed w s = false.
Proof. unfold failed. now intros ->. Qed.

Lemma failed_Some w s e : w_fault w s = Some e -> failed w s = true.
Proof. unfold failed. now intros ->. Qed.

Lemma failed_false w s : failed w s = false -> w_fault w s = None.
Proof. unfold failed. now destruct (w_fault w s). Qed.

Lemma status_None w s inv ok :
  w_fault w s = None -> status w s inv ok = if ok then CL_SUCCESS else inv.
Proof. unfold status. now intros ->. Qed.

Lemma status_Some w s inv ok e : w_fault w s = Some e -> status w s inv ok = Z.neg e.
Proof. unfold status. now intros ->. Qed.

(** Use what is known about the sites of the world. *)
Ltac use_site H :=
  match type of H with
  | w_fault ?w ?s = None =>
      rewrite ?(failed_None w s H), ?(fun inv ok => status_None w s inv ok H)
  | w_fault ?w ?s = Some ?e =>
      rewrite ?(failed_Some w s e H), ?(fun inv ok => status_Some w s inv ok e H)
  end.

Ltac use_sites :=
  repeat match goal with H : w_fault _ _ = _ |- _ => progress (use_site H) end.

(** Open the body of [main_compute] down to the calls of checked sites. *)
Ltac expose :=
  unfold main_compute, setup_openCL_device_context_queue_kernel, create_device,
    build_program, setup_kernel_memory, copy_kernel_args,
    clGetPlatformIDs, clGetDeviceIDs, clCreateContext, clCreateProgramWithSource,
    clCreateCommandQueueWithProperties, clCreateKernel, clBuildProgram, create,
    fopen, malloc, new_handle.

(** Run the monadic program as far as it goes. *)
Ltac exec :=
  lazy beta iota zeta delta
    [free_memory bind ret get set emit exit crash printf perror free now rand load store
     clCreateBuffer clEnqueueWriteBuffer clSetKernelArg clEnqueueNDRangeKernel
     clWaitForEvents clEnqueueReadBuffer clRelease clReleaseMemObject clReleaseKernel
     clReleaseCommandQueue clReleaseProgram clReleaseContext
     fst snd glob heap dmem kargs fresh nrand nclock trace
     set_glob set_heap set_dmem set_kargs set_fresh set_nrand set_nclock log logs
     gupd gupd_if gvar_eqb andb loaded initial
     Z.ltb Z.eqb Z.compare Pos.compare Pos.compare_cont Pos.eqb
     CL_SUCCESS CL_DEVICE_NOT_FOUND NULL Pos.succ].

Lemma setup_ok_sites w :
  setup_ok w = true ->
  w_fault w at_clGetPlatformIDs = None
  /\ w_fault w at_clCreateContext = None
  /\ w_fault w at_fopen = None
  /\ w_fault w at_malloc_source = None
  /\ w_fault w at_clCreateProgramWithSource = None
  /\ w_fault w at_clBuildProgram = None
  /\ w_fault w at_clCreateCommandQueue = None
  /\ w_fault w at_clCreateKernel = None
  /\ (w_fault w (at_clGetDeviceIDs CL_DEVICE_TYPE_GPU) = None
      \/ w_fault w (at_clGetDeviceIDs CL_DEVICE_TYPE_GPU) = Some 1%positive
         /\ w_fault w (at_clGetDeviceIDs CL_DEVICE_TYPE_CPU) = None).
Proof.
  unfold setup_ok. rewrite !andb_true_iff, !negb_true_iff.
  intros [[[[[[[[H1 H2] H3] H4] H5] H6] H7] H8] H9].
  repeat split; try (now apply failed_false).
  unfold device_found, gpu_not_found in H2.
  apply orb_true_iff in H2. destruct H2 as [H2|H2].
  - left. apply failed_false. now apply negb_true_iff.
  - right. apply andb_true_iff in H2. destruct H2 as [Ha Hb].
    apply negb_true_iff, failed_false in Hb. split; [|exact Hb].
    destruct (w_fault w (at_clGetDeviceIDs CL_DEVICE_TYPE_GPU)) as [[e|e|]|];
      try discriminate. reflexivity.
Qed.

(** Lines 40-64 on a world whose set-up succeeds: the program runs to the end
    of [main], whatever the unchecked calls report. *)
Lemma main_compute_ok w g0 n p1 p2 p3 H k T :
  g0 SZ = n ->
  setup_ok w = true ->
  p1 <> NULL \/ n <= 0 -> p2 <> NULL \/ n <= 0 -> p3 <> NULL \/ n <= 0 ->
  exists st' c,
    main_compute w (loaded g0 p1 p2 p3 H k T) = (Ret tt, st')
    /\ trace st' = T ++ success_trace w n p1 p2 p3
                         (vector (H p1) n) (vector (H p2) n) (vector (heap st' p3) n) c
    /\ codes_reported w c.
Proof.
  intros Hn Hs X1 X2 X3.
  destruct (setup_ok_sites w Hs) as (S1 & S2 & S3 & S4 & S5 & S6 & S7 & S8 & [G|[G C]]).
  all: expose; use_sites; exec; rewrite ?Hn.
  all: rewrite print_spec by assumption; exec; rewrite ?Hn.
  all: rewrite print_spec by assumption; exec; rewrite ?Hn.
  all: rewrite print_spec by assumption; exec; rewrite ?Hn.
  all: eexists; eexists (Build_Codes _ _ _ _ _ _ _ _ _ _); (split; [reflexivity|]).
  all: unfold success_trace, selection, gpu_not_found; rewrite G.
  all: lazy beta iota zeta delta [trace heap fst snd r_write1 r_write2 r_arg0 r_arg1 r_arg2
      r_arg3 r_launch r_event r_wait r_read Pos.add Pos.succ].
  all: split; [rewrite <- !app_assoc; reflexivity|].
  all: unfold codes_reported, reported; cbn [r_write1 r_write2 r_arg0 r_arg1 r_arg2
      r_arg3 r_launch r_event r_wait r_read].
  all: repeat split; do 2 eexists; reflexivity.
Qed.

(** *** The three host vectors *)

Lemma args_globals_SZ argv : args_globals argv SZ = size_arg argv.
Proof.
  unfold args_globals, size_arg. now destruct (1 <? Z.of_nat (List.length argv)).
Qed.

Lemma hosts_ok_ptr w n g f :
  hosts_ok w n = true -> In g [v1; v2; v_out] ->
  new_handle w (at_malloc g) f <> NULL \/ n <= 0.
Proof.
  unfold hosts_ok. intros H Hg. apply orb_true_iff in H. destruct H as [H|H].
  - right. now apply Z.leb_le.
  - left. apply negb_true_iff in H. apply orb_false_iff in H. destruct H as [H H3].
    apply orb_false_iff in H. destruct H as [H1 H2].
    unfold new_handle.
    destruct Hg as [<-|[<-|[<-|[]]]]; rewrite ?H1, ?H2, ?H3; discriminate.
Qed.

Lemma three_inits w g0 n :
  g0 SZ = n -> hosts_ok w n = true ->
  (n <- get SZ ;; init w v1 n ;;
   n <- get SZ ;; init w v2 n ;;
   n <- get SZ ;; init w v_out n) (set_glob g0 initial)
  = (Ret tt,
     loaded g0 (host_ptr w v1) (host_ptr w v2) (host_ptr w v_out)
       (host_heap w n) (0 + Z.to_nat n + Z.to_nat n + Z.to_nat n) (init_trace w n)).
Proof.
  intros Hn H.
  unfold bind at 1. unfold get at 1. cbn [glob set_glob]. rewrite Hn.
  unfold bind at 1. rewrite init_spec by (apply hosts_ok_ptr; cbn; auto).
  unfold bind at 1. unfold get at 1.
  replace (glob (after_init _ _ _ _) SZ) with n by (symmetry; exact Hn).
  unfold bind at 1. rewrite init_spec by (apply hosts_ok_ptr; cbn; auto).
  unfold bind at 1. unfold get at 1.
  replace (glob (after_init _ _ _ _) SZ) with n by (symmetry; exact Hn).
  rewrite init_spec by (apply hosts_ok_ptr; cbn; auto).
  reflexivity.
Qed.

Lemma main_init_ok w argv :
  hosts_ok w (size_arg argv) = true ->
  main_init w argv initial = (Ret tt, after_main_init w argv).
Proof.
  intros H. unfold after_main_init.
  rewrite <- (three_inits w (args_globals argv) (size_arg argv)
                (args_globals_SZ argv) H).
  unfold main_init, args_globals.
  destruct (1 <? Z.of_nat (List.length argv)); reflexivity.
Qed.

(** *** Whole runs *)

Lemma main_ok w argv :
  hosts_ok w (size_arg argv) = true -> setup_ok w = true ->
  exists st' c,
    main w argv initial = (Ret tt, st')
    /\ trace st'
       = init_trace w (size_arg argv)
         ++ success_trace w (size_arg argv)
              (host_ptr w v1) (host_ptr w v2) (host_ptr w v_out)
              (vector (host_heap w (size_arg argv) (host_ptr w v1)) (size_arg argv))
              (vector (host_heap w (size_arg argv) (host_ptr w v2)) (size_arg argv))
              (vector (heap st' (host_ptr w v_out)) (size_arg argv)) c
    /\ codes_reported w c.
Proof.
  intros Hh Hs. unfold main, bind. rewrite main_init_ok by exact Hh.
  unfold after_main_init.
  apply main_compute_ok; try exact Hs; try apply args_globals_SZ.
  all: apply hosts_ok_ptr; cbn; auto.
Qed.

Ltac quiet_done :=
  split; [reflexivity|];
  cbn [released created flat_map released_by created_by app Z.eqb NULL];
  intros h Hin; cbn [In] in Hin;
  repeat (destruct Hin as [<-|Hin]; [split; [lia | split; [cbn; auto 12 | reflexivity]]|]);
  contradiction.

Ltac aborted :=
  expose; use_sites; exec;
  try (rewrite print_spec by assumption; exec);
  try (rewrite print_spec by assumption; exec);
  do 3 eexists; split; [reflexivity|]; split; [tauto|];
  split; [cbn [trace]; rewrite <- !app_assoc; reflexivity|]; quiet_done.

Lemma main_compute_abort w g0 n p1 p2 p3 H k T :
  g0 SZ = n ->
  setup_ok w = false ->
  p1 <> NULL \/ n <= 0 -> p2 <> NULL \/ n <= 0 ->
  exists o st' evs,
    main_compute w (loaded g0 p1 p2 p3 H k T) = (o, st')
    /\ (o = Exit 1 \/ o = Crash)
    /\ trace st' = T ++ printed (vector (H p1) n) ++ printed (vector (H p2) n) ++ evs
    /\ quiet evs.
Proof.
  intros Hn Hs X1 X2. subst n.
  destruct (w_fault w at_clGetPlatformIDs) eqn:S1; [aborted|].
  assert (rest : forall d : unit,
    w_fault w (at_clGetDeviceIDs CL_DEVICE_TYPE_GPU) = None
    \/ w_fault w (at_clGetDeviceIDs CL_DEVICE_TYPE_GPU) = Some 1%positive
       /\ w_fault w (at_clGetDeviceIDs CL_DEVICE_TYPE_CPU) = None ->
    exists o st' evs,
      main_compute w (loaded g0 p1 p2 p3 H k T) = (o, st')
      /\ (o = Exit 1 \/ o = Crash)
      /\ trace st' = T ++ printed (vector (H p1) (g0 SZ)) ++ printed (vector (H p2) (g0 SZ)) ++ evs
      /\ quiet evs).
  { intros _ D.
    destruct (w_fault w at_clCreateContext) eqn:S2; [destruct D as [G|[G C]]; aborted|].
    destruct (w_fault w at_fopen) eqn:S3; [destruct D as [G|[G C]]; aborted|].
    destruct (w_fault w at_malloc_source) eqn:S4; [destruct D as [G|[G C]]; aborted|].
    destruct (w_fault w at_clCreateProgramWithSource) eqn:S5;
      [destruct D as [G|[G C]]; aborted|].
    destruct (w_fault w at_clBuildProgram) eqn:S6.
    { destruct (w_fault w at_malloc_log) eqn:S6'; destruct D as [G|[G C]]; aborted. }
    destruct (w_fault w at_clCreateCommandQueue) eqn:S7; [destruct D as [G|[G C]]; aborted|].
    destruct (w_fault w at_clCreateKernel) eqn:S8; [destruct D as [G|[G C]]; aborted|].
    exfalso. revert Hs. unfold setup_ok, device_found, gpu_not_found.
    destruct D as [G|[G C]]; use_sites; rewrite G; discriminate. }
  destruct (w_fault w (at_clGetDeviceIDs CL_DEVICE_TYPE_GPU)) as [[e|e|]|] eqn:G.
  - aborted.
  - aborted.
  - destruct (w_fault w (at_clGetDeviceIDs CL_DEVICE_TYPE_CPU)) eqn:C.
    + aborted.
    + apply (rest tt). right. now split.
  - apply (rest tt). now left.
Qed.

(** *** Machine arithmetic *)


Lemma to_int_range z : is_int (to_int z).
Proof.
  unfold is_int, to_int, INT_MIN, INT_MAX.
  pose proof (Z.mod_pos_bound (z + 2147483648) 4294967296 ltac:(lia)). lia.
Qed.

Lemma to_size_t_nonneg n : 0 <= n <= INT_MAX -> to_size_t n = n.
Proof.
  unfold to_size_t, SIZE_MODULUS, INT_MAX. intros H. apply Z.mod_small. lia.
Qed.

Lemma to_size_t_neg n : INT_MIN <= n < 0 -> to_size_t n = SIZE_MODULUS + n.
Proof.
  unfold to_size_t, SIZE_MODULUS, INT_MIN. intros H.
  symmetry. apply (Z.mod_unique_pos _ _ (-1)); lia.
Qed.

Lemma bytes_nonneg n : 0 <= n <= INT_MAX -> size_mul (to_size_t n) sizeof_int = n * 4.
Proof.
  intros H. rewrite to_size_t_nonneg by exact H.
  unfold size_mul, sizeof_int, SIZE_MODULUS, INT_MAX in *. apply Z.mod_small. lia.
Qed.

Lemma bytes_neg n :
  INT_MIN <= n < 0 -> size_mul (to_size_t n) sizeof_int = SIZE_MODULUS + n * 4.
Proof.
  intros H. rewrite to_size_t_neg by exact H.
  unfold size_mul, sizeof_int, SIZE_MODULUS, INT_MIN in *.
  symmetry. apply (Z.mod_unique_pos _ _ 3); lia.
Qed.

Lemma size_mul_comm a b : size_mul a b = size_mul b a.
Proof. unfold size_mul. now rewrite Z.mul_comm. Qed.

Lemma atoi_int s : is_int (atoi s).
Proof. apply to_int_range. Qed.

Lemma size_arg_int argv : is_int (size_arg argv).
Proof.
  unfold size_arg. destruct (1 <? Z.of_nat (List.length argv)).
  - apply atoi_int.
  - unfold is_int, INT_MIN, INT_MAX. lia.
Qed.

(** *** The kernel launch *)

Section Launch.

Variables (size : Z) (ha hb ho : handle) (a b o : block) (m : devmem).
Hypothesis Ha : m ha = Some a.
Hypothesis Hb : m hb = Some b.
Hypothesis Ho : m ho = Some o.
Hypothesis Hoa : ho <> ha.
Hypothesis Hob : ho <> hb.

Lemma ndrange_vector_add k :
  ndrange k (vector_add_ocl size ha hb ho) m ha = Some a
  /\ ndrange k (vector_add_ocl size ha hb ho) m hb = Some b
  /\ exists o',
       ndrange k (vector_add_ocl size ha hb ho) m ho = Some o'
       /\ forall i, o' i = if (0 <=? i) && (i <? Z.of_nat k) && (i <? size)
                           then add_int (a i) (b i) else o i.
Proof.
  induction k as [|k (IHa & IHb & o' & IHo & IH)].
  - cbn [ndrange]. repeat split; try assumption. exists o. split; [assumption|].
    intros i. zcases; try reflexivity; lia.
  - cbn [ndrange]. unfold vector_add_ocl at 1 3 5.
    destruct ((0 <=? Z.of_nat k) && (Z.of_nat k <? size)) eqn:E.
    + rewrite IHa, IHb, IHo.
      rewrite !upd_other by (intro; congruence). rewrite upd_same.
      repeat split; try assumption. eexists. split; [reflexivity|].
      intros i. unfold upd. rewrite IH.
      apply andb_true_iff in E. destruct E as [E1 E2].
      apply Z.leb_le in E1. apply Z.ltb_lt in E2.
      zcases; try reflexivity; try lia. now subst.
    + repeat split; try assumption. exists o'. split; [assumption|].
      intros i. rewrite IH.
      apply andb_false_iff in E.
      zcases; try reflexivity; try lia.
      all: destruct E as [E|E]; [apply Z.leb_gt in E | apply Z.ltb_ge in E]; lia.
Qed.

End Launch.

(** *** The sum on a platform without failures *)

Lemma failed_free w s : fault_free w -> failed w s = false.
Proof. intros F. apply failed_None, F. Qed.

Lemma status_free w s inv ok :
  fault_free w -> status w s inv ok = if ok then CL_SUCCESS else inv.
Proof. intros F. apply status_None, F. Qed.

Lemma is_null_pos p : 0 < p -> is_null p = false.
Proof. unfold is_null, NULL. intros. apply Z.eqb_neq. lia. Qed.


Lemma nth_slice m n : forall lo i,
  (i < n)%nat -> nth i (slice m lo n) 0 = m (lo + Z.of_nat i).
Proof.
  induction n as [|n IH]; intros lo i Hi; [lia|].
  rewrite slice_S. destruct i as [|i]; cbn [nth].
  - f_equal. lia.
  - rewrite IH by lia. f_equal. lia.
Qed.

Lemma nth_vector m n i :
  (i < Z.to_nat n)%nat -> nth i (vector m n) 0 = m (Z.of_nat i).
Proof. intros Hi. unfold vector. now rewrite nth_slice. Qed.


(** Lines 40-64 when nothing fails: the output vector holds the element-wise
    sums. *)
Lemma main_compute_sum w g0 n p1 p2 p3 H k T :
  fault_free w -> g0 SZ = n -> 1 <= n <= INT_MAX ->
  0 < p1 < 4 -> 0 < p2 < 4 -> 0 < p3 < 4 ->
  exists st',
    main_compute w (loaded g0 p1 p2 p3 H k T) = (Ret tt, st')
    /\ glob st' v_out = p3
    /\ forall i, 0 <= i < n -> heap st' p3 i = add_int (H p1 i) (H p2 i).
Proof.
  intros F Hn Hr X1 X2 X3.
  assert (N1 : p1 <> NULL \/ n <= 0) by (left; unfold NULL; lia).
  assert (N2 : p2 <> NULL \/ n <= 0) by (left; unfold NULL; lia).
  assert (N3 : p3 <> NULL \/ n <= 0) by (left; unfold NULL; lia).
  expose.
  unfold clCreateBuffer, clEnqueueWriteBuffer, clSetKernelArg, clEnqueueNDRangeKernel,
    clWaitForEvents, clEnqueueReadBuffer, new_handle.
  rewrite ?(fun s => failed_free w s F).
  rewrite ?(fun s inv ok => status_free w s inv ok F).
  exec; rewrite ?Hn.
  rewrite print_spec by assumption; exec; rewrite ?Hn.
  rewrite print_spec by assumption; exec; rewrite ?Hn.
  rewrite print_spec by assumption; exec; rewrite ?Hn.
  eexists. split; [reflexivity|]. split; [reflexivity|]. lazy beta iota delta [heap].
  rewrite ?(is_null_pos p1), ?(is_null_pos p2), ?(is_null_pos p3) by lia.
  rewrite !(upd_other H 7) by lia.
  replace (size_mul (to_size_t n) sizeof_int / sizeof_int) with n
    by (rewrite bytes_nonneg by lia; unfold sizeof_int; symmetry; apply Z.div_mul; lia).
  rewrite to_size_t_nonneg by lia.
  cbn [negb].
  match goal with
  | |- context [host_read _ _ _ _ ?M ?b] =>
      assert (D : exists o', M b = Some o'
                /\ forall i, 0 <= i < n -> o' i = add_int (H p1 i) (H p2 i))
  end.
  { lazy beta iota delta [negb dev_launch launch dev_write upd_if upd Z.eqb Pos.eqb andb].
    match goal with
    | |- context [ndrange ?K (vector_add_ocl ?sz ?ha ?hb ?ho) ?m] =>
        destruct (ndrange_vector_add sz ha hb ho _ _ _ m eq_refl eq_refl eq_refl
                    ltac:(discriminate) ltac:(discriminate) K) as (_ & _ & o' & E & Eo)
    end.
    exists o'. split; [exact E|]. intros i Hi. rewrite Eo. unfold blit.
    zcases; try reflexivity; lia. }
  destruct D as (o' & E & Eo). intros i Hi.
  unfold host_read. rewrite E, upd_same. unfold blit.
  rewrite Eo by lia. zcases; try reflexivity; lia.
Qed.

(** *** Observing a successful run *)

Lemma run_success w argv :
  hosts_ok w (size_arg argv) = true -> setup_ok w = true ->
  exists c,
    exit_status w argv = Exited 0
    /\ events w argv
       = init_trace w (size_arg argv)
         ++ success_trace w (size_arg argv)
              (host_ptr w v1) (host_ptr w v2) (host_ptr w v_out)
              (vector (host_heap w (size_arg argv) (host_ptr w v1)) (size_arg argv))
              (vector (host_heap w (size_arg argv) (host_ptr w v2)) (size_arg argv))
              (vector (heap (final w argv) (host_ptr w v_out)) (size_arg argv)) c
    /\ codes_reported w c.
Proof.
  intros Hh Hs. destruct (main_ok w argv Hh Hs) as (st' & c & E & Ht & Hc).
  exists c. unfold exit_status, events, final, run. cbv zeta. rewrite E.
  cbn [fst snd termination_of]. split; [reflexivity|]. split; [exact Ht|exact Hc].
Qed.

Lemma printed_console v : Forall (fun e => is_console e = true) (printed v).
Proof.
  unfold printed. apply Forall_app. split; [|repeat constructor].
  destruct (15 <? Z.of_nat (List.length v)).
  - apply Forall_app. split; [|constructor; [reflexivity|]].
    + apply Forall_map. apply Forall_forall. reflexivity.
    + apply Forall_map. apply Forall_forall. reflexivity.
  - apply Forall_map. apply Forall_forall. reflexivity.
Qed.

Lemma flat_map_nil {A B} (f : A -> list B) l :
  Forall (fun e => f e = []) l -> flat_map f l = [].
Proof. induction 1 as [|e l He _ IH]; cbn; [reflexivity|]. now rewrite He, IH. Qed.

Lemma filter_all {A} (f : A -> bool) l :
  Forall (fun e => f e = true) l -> filter f l = l.
Proof. induction 1 as [|e l He _ IH]; cbn; [reflexivity|]. now rewrite He, IH. Qed.

Lemma filter_none {A} (f : A -> bool) l :
  Forall (fun e => f e = false) l -> filter f l = [].
Proof. induction 1 as [|e l He _ IH]; cbn; [reflexivity|]. now rewrite He, IH. Qed.

(** An observation that ignores console output sees nothing in a printed
    vector. *)
Lemma flat_map_printed {B} (f : io -> list B) v :
  (forall fmt args, f (Printf fmt args) = []) -> flat_map f (printed v) = [].
Proof.
  intros Hf. apply flat_map_nil.
  eapply Forall_impl; [|apply printed_console].
  intros [] He; try discriminate He. apply Hf.
Qed.

Lemma filter_printed (f : io -> bool) v :
  (forall fmt args, f (Printf fmt args) = false) -> filter f (printed v) = [].
Proof.
  intros Hf. apply filter_none.
  eapply Forall_impl; [|apply printed_console].
  intros [] He; try discriminate He. apply Hf.
Qed.

Lemma stdout_printed v : stdout (printed v) = printed v.
Proof. apply filter_all, printed_console. Qed.

(** Normalise an observation of the trace of a successful run. *)
Ltac observe :=
  unfold success_trace, init_trace, selection,
    buffer_sizes, malloc_sizes, launch_sizes, binding_statuses, transfer_statuses,
    diagnostics,
    released, created, stdout;
  rewrite ?flat_map_app, ?filter_app;
  rewrite ?flat_map_printed by reflexivity;
  rewrite ?filter_printed by reflexivity;
  fold stdout; rewrite ?stdout_printed;
  match goal with
  | |- context [gpu_not_found ?w] => destruct (gpu_not_found w)
  | _ => idtac
  end;
  cbn [flat_map filter is_console is_clock is_clRelease app fst snd].

Lemma printed_no_clock v : Forall (fun e => is_clock e = false) (printed v).
Proof.
  eapply Forall_impl; [|apply printed_console].
  intros [] He; try discriminate He. reflexivity.
Qed.

Lemma after_clock_app l r :
  Forall (fun e => is_clock e = false) l -> after_clock (l ++ r) = after_clock r.
Proof. induction 1 as [|e l He _ IH]; cbn; [reflexivity|]. now rewrite He. Qed.

Lemma until_clock_app l r :
  Forall (fun e => is_clock e = false) l -> until_clock (l ++ r) = l ++ until_clock r.
Proof. induction 1 as [|e l He _ IH]; cbn; [reflexivity|]. now rewrite He, IH. Qed.

(** ** Claims *)

(** C4.  Device selection asks for a GPU first.  A CPU is asked for exactly
    when the GPU request reports [CL_DEVICE_NOT_FOUND], once, and after that
    request.  When no platform was identified nothing is requested.  The
    function returns a device exactly when a request delivered one; when
    neither request yields a device the program exits with status 1. *)
Theorem C4_gpu_then_cpu_fallback w st :
  exists evs,
    trace (snd (create_device w st)) = trace st ++ evs
    /\ device_requests evs
       = (if failed w at_clGetPlatformIDs then []
          else if gpu_not_found w then [CL_DEVICE_TYPE_GPU; CL_DEVICE_TYPE_CPU]
          else [CL_DEVICE_TYPE_GPU])
    /\ (failed w at_clGetPlatformIDs = false ->
        (fst (create_device w st) = Exit 1 <-> device_found w = false)
        /\ (device_found w = true ->
            exists d, fst (create_device w st) = Ret d /\ d <> NULL))
    /\ (failed w (at_clGetDeviceIDs CL_DEVICE_TYPE_GPU) = true ->
        failed w (at_clGetDeviceIDs CL_DEVICE_TYPE_CPU) = true ->
        fst (create_device w st) = Exit 1).
Proof.
  unfold create_device, clGetPlatformIDs, clGetDeviceIDs, new_handle.
  unfold device_found, gpu_not_found.
  destruct (w_fault w at_clGetPlatformIDs) eqn:P;
    destruct (w_fault w (at_clGetDeviceIDs CL_DEVICE_TYPE_GPU)) as [[e|e|]|] eqn:G;
    destruct (w_fault w (at_clGetDeviceIDs CL_DEVICE_TYPE_CPU)) eqn:C;
    use_sites; rewrite ?G; exec; cbn [negb orb andb];
    (eexists; split; [rewrite <- ?app_assoc; reflexivity|]);
    (split; [reflexivity|]);
    (split;
     [ intros X;
       first [ discriminate X
             | split;
               [ split; intros Y; first [reflexivity | discriminate Y]
               | intros Y;
                 first [ discriminate Y
                       | eexists; split; [reflexivity | discriminate] ] ] ]
     | intros X Y; first [reflexivity | discriminate X | discriminate Y] ]).
Qed.

(** C7.  On every run that reaches the end of [main], standard output holds
    the console form of input A, of input B and of the output vector (the
    first 5 and last 5 elements joined by the ellipsis marker when the
    length exceeds 15, else all elements), and then the measured time: the
    difference of the two clock readings as a fraction of milliseconds,
    printed with [%f].  The only other line is the notice of a GPU that was
    not found. *)
Theorem C7_console_output w argv :
  hosts_ok w (size_arg argv) = true -> setup_ok w = true ->
  let n := size_arg argv in
  let A := vector (host_heap w n (host_ptr w v1)) n in
  let B := vector (host_heap w n (host_ptr w v2)) n in
  let Out := vector (heap (final w argv) (host_ptr w v_out)) n in
  exit_status w argv = Exited 0
  /\ stdout (events w argv)
     = printed A ++ printed B ++ stdout (fst (selection w)) ++ printed Out
       ++ [Printf "Kernel Execution Time: %f ms
" [ADouble (millis (w_clock w 0) (w_clock w 1))]]
  /\ (forall v, 15 < Z.of_nat (List.length v) ->
       printed v = map elt (firstn 5 v) ++ [ellipsis]
                   ++ map elt (skipn (List.length v - 5) v) ++ [separator])
  /\ (forall v, Z.of_nat (List.length v) <= 15 -> printed v = map elt v ++ [separator])
  /\ (millis (w_clock w 0) (w_clock w 1) * inject_Z 1000000
      == inject_Z (w_clock w 1 - w_clock w 0))%Q.
Proof.
  intros Hh Hs n A B Out.
  destruct (run_success w argv Hh Hs) as (c & Ex & Ev & Hc).
  split; [exact Ex|]. split.
  - rewrite Ev. subst n A B Out. observe; reflexivity.
  - split; [|split].
    + intros v Hv. unfold printed.
      replace (15 <? Z.of_nat (List.length v)) with true by (symmetry; apply Z.ltb_lt; lia).
      now rewrite <- !app_assoc.
    + intros v Hv. unfold printed.
      replace (15 <? Z.of_nat (List.length v)) with false by (symmetry; apply Z.ltb_ge; lia).
      reflexivity.
    + unfold millis, Qeq, Qmult, inject_Z. cbn [Qnum Qden]. lia.
Qed.

Lemma C7_witness :
  hosts_ok ideal (size_arg ["prog"; "20"]%string) = true
  /\ setup_ok ideal = true
  /\ exit_status ideal ["prog"; "20"]%string = Exited 0
  /\ stdout (events ideal ["prog"; "20"]%string)
     = map elt [0; 7; 14; 21; 28] ++ [ellipsis] ++ map elt [5; 12; 19; 26; 33]
       ++ [separator]
       ++ map elt [40; 47; 54; 61; 68] ++ [ellipsis] ++ map elt [45; 52; 59; 66; 73]
       ++ [separator]
       ++ map elt [40; 54; 68; 82; 96] ++ [ellipsis] ++ map elt [50; 64; 78; 92; 106]
       ++ [separator]
       ++ [Printf "Kernel Execution Time: %f ms
" [ADouble (Qmake 1500000 1000000)]].
Proof.
  split; [reflexivity|]. split; [reflexivity|].
  destruct (C7_console_output ideal ["prog"; "20"]%string eq_refl eq_refl)
    as (Ex & Out & _).
  split; [exact Ex|]. rewrite Out. reflexivity.
Defined.

(** C2.  What the two clock readings bracket on a run that reaches the end
    of [main]: the dispatch, the completion wait, the read-back, and then
    the printing of the output vector on the console, which is never empty
    (it ends with the separator line).  So the reported time does not
    exclude all console printing. *)
Theorem C2_timed_window_includes_print w argv :
  hosts_ok w (size_arg argv) = true -> setup_ok w = true ->
  let n := size_arg argv in
  let Out := vector (heap (final w argv) (host_ptr w v_out)) n in
  exists q k b c,
    timed_window (events w argv)
    = [Call_clEnqueueNDRangeKernel q k (to_size_t n) (r_launch c);
       Call_clWaitForEvents (r_event c) (r_wait c);
       Call_clEnqueueReadBuffer q b (size_mul (to_size_t n) sizeof_int)
         (host_ptr w v_out) (r_read c)]
      ++ printed Out
    /\ stdout (timed_window (events w argv)) = printed Out
    /\ In separator (stdout (timed_window (events w argv))).
Proof.
  intros Hh Hs n Out.
  destruct (run_success w argv Hh Hs) as (c & Ex & Ev & Hc).
  assert (W : exists q k b,
    timed_window (events w argv)
    = [Call_clEnqueueNDRangeKernel q k (to_size_t n) (r_launch c);
       Call_clWaitForEvents (r_event c) (r_wait c);
       Call_clEnqueueReadBuffer q b (size_mul (to_size_t n) sizeof_int)
         (host_ptr w v_out) (r_read c)]
      ++ printed Out).
  { rewrite Ev. subst n Out. unfold timed_window, success_trace, init_trace, selection.
    cbn [app after_clock is_clock].
    rewrite after_clock_app by apply printed_no_clock.
    rewrite after_clock_app by apply printed_no_clock.
    destruct (gpu_not_found w); cbn [app after_clock until_clock is_clock fst snd].
    all: rewrite until_clock_app by apply printed_no_clock.
    all: cbn [until_clock is_clock]; rewrite app_nil_r.
    all: do 3 eexists; reflexivity. }
  destruct W as (q & k & b & W). exists q, k, b, c.
  split; [exact W|]. rewrite W.
  assert (S : stdout ([Call_clEnqueueNDRangeKernel q k (to_size_t n) (r_launch c);
       Call_clWaitForEvents (r_event c) (r_wait c);
       Call_clEnqueueReadBuffer q b (size_mul (to_size_t n) sizeof_int)
         (host_ptr w v_out) (r_read c)] ++ printed Out) = printed Out).
  { unfold stdout. cbn [app filter is_console]. apply stdout_printed. }
  split; [exact S|]. rewrite S. unfold printed. apply in_or_app. right. now left.
Qed.

Lemma C2_witness :
  hosts_ok ideal (size_arg ["prog"; "3"]%string) = true
  /\ setup_ok ideal = true
  /\ exists q k b c,
       timed_window (events ideal ["prog"; "3"]%string)
       = [Call_clEnqueueNDRangeKernel q k 3 (r_launch c);
          Call_clWaitForEvents (r_event c) (r_wait c);
          Call_clEnqueueReadBuffer q b 12 3 (r_read c)]
         ++ [elt 21; elt 35; elt 49; separator]
       /\ stdout (timed_window (events ideal ["prog"; "3"]%string))
          = [elt 21; elt 35; elt 49; separator]
       /\ In separator (stdout (timed_window (events ideal ["prog"; "3"]%string))).
Proof.
  split; [reflexivity|]. split; [reflexivity|].
  exact (C2_timed_window_includes_print ideal ["prog"; "3"]%string eq_refl eq_refl).
Defined.

(** C3.  What the code does when the binding of a kernel argument fails, on
    a run whose set-up succeeded: the negative status is returned by
    [clSetKernelArg] and dropped; the test after the four bindings reads the
    global [err], which the successful program build left at zero.  The run
    prints no diagnostic, goes on to dispatch the kernel, and ends with exit
    status 0. *)
Theorem C3_binding_failure_is_not_detected w argv i e :
  hosts_ok w (size_arg argv) = true -> setup_ok w = true ->
  In i [0; 1; 2; 3] -> w_fault w (at_clSetKernelArg i) = Some e ->
  In (i, Z.neg e) (binding_statuses (events w argv))
  /\ List.length (binding_statuses (events w argv)) = 4%nat
  /\ diagnostics (events w argv) = []
  /\ launch_sizes (events w argv) = [to_size_t (size_arg argv)]
  /\ exit_status w argv = Exited 0.
Proof.
  intros Hh Hs Hi He.
  destruct (run_success w argv Hh Hs) as (c & Ex & Ev & Hc).
  destruct Hc as (_ & _ & (? & ? & R0) & (? & ? & R1) & (? & ? & R2) & (? & ? & R3) & _).
  rewrite Ev. repeat split; try exact Ex; try (observe; reflexivity).
  observe.
  all: cbn [In] in *.
  all: destruct Hi as [<-|[<-|[<-|[<-|[]]]]].
  all: rewrite ?R0, ?R1, ?R2, ?R3, !(fun inv ok => status_Some w _ inv ok e He); auto 6.
Qed.

Lemma C3_witness :
  hosts_ok binding_fails (size_arg ["prog"; "3"]%string) = true
  /\ setup_ok binding_fails = true
  /\ In 0 [0; 1; 2; 3]
  /\ w_fault binding_fails (at_clSetKernelArg 0) = Some 51%positive
  /\ In (0, -51) (binding_statuses (events binding_fails ["prog"; "3"]%string))
  /\ List.length (binding_statuses (events binding_fails ["prog"; "3"]%string)) = 4%nat
  /\ diagnostics (events binding_fails ["prog"; "3"]%string) = []
  /\ launch_sizes (events binding_fails ["prog"; "3"]%string) = [3]
  /\ exit_status binding_fails ["prog"; "3"]%string = Exited 0.
Proof.
  split; [reflexivity|]. split; [reflexivity|]. split; [now left|]. split; [reflexivity|].
  exact (C3_binding_failure_is_not_detected binding_fails ["prog"; "3"]%string 0 51
           eq_refl eq_refl (or_introl eq_refl) eq_refl).
Defined.

(** C6.  What the code does when the allocation of a device buffer or a
    host-to-device transfer fails, on a run whose set-up succeeded:
    [clCreateBuffer] is called without an error-code receiver and its result
    is not looked at, the statuses of the transfers are dropped.  The run
    prints no diagnostic, its standard output is the usual one, the kernel
    is dispatched all the same, the null handle of a buffer that was not
    created is handed to [clReleaseMemObject], and the exit status is 0. *)
Theorem C6_memory_failure_is_not_detected w argv :
  hosts_ok w (size_arg argv) = true -> setup_ok w = true ->
  memory_fault w = true ->
  let n := size_arg argv in
  diagnostics (events w argv) = []
  /\ stdout (events w argv)
     = printed (vector (host_heap w n (host_ptr w v1)) n)
       ++ printed (vector (host_heap w n (host_ptr w v2)) n)
       ++ stdout (fst (selection w))
       ++ printed (vector (heap (final w argv) (host_ptr w v_out)) n)
       ++ [Printf "Kernel Execution Time: %f ms
" [ADouble (millis (w_clock w 0) (w_clock w 1))]]
  /\ launch_sizes (events w argv) = [to_size_t n]
  /\ (forall b, In b [bufV1; bufV2; bufV_out] ->
       failed w (at_clCreateBuffer b) = true ->
       In (Call_clRelease MemObject NULL) (events w argv))
  /\ (exists r1 r2,
       transfer_statuses (events w argv) = [r1; r2]
       /\ (forall e, w_fault w (at_clEnqueueWriteBuffer bufV1) = Some e -> r1 = Z.neg e)
       /\ (forall e, w_fault w (at_clEnqueueWriteBuffer bufV2) = Some e -> r2 = Z.neg e))
  /\ exit_status w argv = Exited 0.
Proof.
  intros Hh Hs _ n.
  destruct (run_success w argv Hh Hs) as (c & Ex & Ev & Hc).
  rewrite Ev. subst n.
  split; [observe; reflexivity|].
  split; [observe; reflexivity|].
  split; [observe; reflexivity|].
  split; [|split; [|exact Ex]].
  2:{ destruct Hc as ((? & ? & R1) & (? & ? & R2) & _).
      exists (r_write1 c), (r_write2 c).
      split; [observe; reflexivity|].
      split; intros e He; [rewrite R1|rewrite R2]; now apply status_Some. }
  intros b Hb Hf. unfold success_trace, new_handle.
  apply in_or_app. right. apply in_or_app. right. apply in_or_app. right.
  apply in_or_app. right. apply in_or_app. right. apply in_or_app. right.
  apply in_or_app. right.
  cbn [In] in Hb. destruct Hb as [<-|[<-|[<-|[]]]]; rewrite Hf; cbn [In]; auto 6.
Qed.

Lemma C6_witness :
  hosts_ok memory_fails (size_arg ["prog"; "3"]%string) = true
  /\ setup_ok memory_fails = true
  /\ memory_fault memory_fails = true
  /\ diagnostics (events memory_fails ["prog"; "3"]%string) = []
  /\ launch_sizes (events memory_fails ["prog"; "3"]%string) = [3]
  /\ In (Call_clRelease MemObject NULL) (events memory_fails ["prog"; "3"]%string)
  /\ exit_status memory_fails ["prog"; "3"]%string = Exited 0.
Proof.
  split; [reflexivity|]. split; [reflexivity|]. split; [reflexivity|].
  destruct (C6_memory_failure_is_not_detected memory_fails ["prog"; "3"]%string
              eq_refl eq_refl eq_refl) as (D & _ & L & R & _ & Ex).
  split; [exact D|]. split; [exact L|]. split; [|exact Ex].
  apply (R bufV1); [now left|reflexivity].
Defined.

(** C8.  On a run that reaches the buffer stage, each of the three device
    buffers is requested with [N * sizeof (int)] bytes as the program
    computes it in [size_t], the very number of bytes asked of [malloc] for
    its host vector; for [0 <= N] that is exactly [4 * N].  A run with
    [N = 0] needs no host allocation to succeed, is not rejected, allocates
    zero-byte buffers, dispatches over zero work-items and ends with exit
    status 0: it does not crash. *)
Theorem C8_buffer_sizes w argv :
  hosts_ok w (size_arg argv) = true -> setup_ok w = true ->
  let n := size_arg argv in
  let bytes := size_mul (to_size_t n) sizeof_int in
  buffer_sizes (events w argv) = [bytes; bytes; bytes]
  /\ firstn 3 (malloc_sizes (events w argv)) = [bytes; bytes; bytes]
  /\ (0 <= n -> bytes = n * 4)
  /\ exit_status w argv = Exited 0
  /\ (n = 0 ->
      hosts_ok w n = true
      /\ buffer_sizes (events w argv) = [0; 0; 0]
      /\ launch_sizes (events w argv) = [0]
      /\ vector (heap (final w argv) (host_ptr w v_out)) n = []).
Proof.
  intros Hh Hs n bytes.
  destruct (run_success w argv Hh Hs) as (c & Ex & Ev & Hc).
  assert (B : buffer_sizes (events w argv) = [bytes; bytes; bytes])
    by (rewrite Ev; observe; reflexivity).
  assert (L : launch_sizes (events w argv) = [to_size_t n])
    by (rewrite Ev; observe; reflexivity).
  split; [exact B|]. split.
  { rewrite Ev. observe; rewrite (size_mul_comm sizeof_int); reflexivity. }
  split.
  { intros Hn. apply bytes_nonneg. pose proof (size_arg_int argv) as I.
    unfold is_int in I. fold n in I. lia. }
  split; [exact Ex|].
  intros Hz. split; [exact Hh|]. rewrite B, L. subst bytes. rewrite Hz.
  repeat split; reflexivity.
Qed.

Lemma C8_witness :
  hosts_ok ideal (size_arg ["prog"; "0"]%string) = true
  /\ setup_ok ideal = true
  /\ buffer_sizes (events ideal ["prog"; "0"]%string) = [0; 0; 0]
  /\ firstn 3 (malloc_sizes (events ideal ["prog"; "0"]%string)) = [0; 0; 0]
  /\ launch_sizes (events ideal ["prog"; "0"]%string) = [0]
  /\ exit_status ideal ["prog"; "0"]%string = Exited 0.
Proof.
  split; [reflexivity|]. split; [reflexivity|].
  destruct (C8_buffer_sizes ideal ["prog"; "0"]%string eq_refl eq_refl)
    as (B & M & _ & Ex & Z0).
  destruct (Z0 eq_refl) as (_ & _ & L & _).
  split; [exact B|]. split; [exact M|]. split; [exact L|exact Ex].
Defined.

(** *** Runs that stop early *)

Lemma run_abort w argv :
  hosts_ok w (size_arg argv) = true -> setup_ok w = false ->
  exists evs,
    (exit_status w argv = Exited 1 \/ exit_status w argv = Crashed)
    /\ events w argv
       = init_trace w (size_arg argv)
         ++ printed (vector (host_heap w (size_arg argv) (host_ptr w v1)) (size_arg argv))
         ++ printed (vector (host_heap w (size_arg argv) (host_ptr w v2)) (size_arg argv))
         ++ evs
    /\ quiet evs.
Proof.
  intros Hh Hs.
  destruct (main_compute_abort w (args_globals argv) (size_arg argv)
              (host_ptr w v1) (host_ptr w v2) (host_ptr w v_out)
              (host_heap w (size_arg argv))
              (0 + Z.to_nat (size_arg argv) + Z.to_nat (size_arg argv)
               + Z.to_nat (size_arg argv))%nat
              (init_trace w (size_arg argv))
              (args_globals_SZ argv) Hs
              ltac:(apply hosts_ok_ptr; cbn; auto)
              ltac:(apply hosts_ok_ptr; cbn; auto))
    as (o & st' & evs & E & Ho & Ht & Hq).
  exists evs. unfold exit_status, events, run, main, bind. cbv zeta.
  rewrite main_init_ok by exact Hh. unfold after_main_init. rewrite E.
  cbn [fst snd]. split; [|split; [exact Ht|exact Hq]].
  destruct Ho as [-> | ->]; cbn [termination_of]; auto.
Qed.

Lemma run_prefix w argv :
  hosts_ok w (size_arg argv) = true ->
  exists rest, events w argv = init_trace w (size_arg argv) ++ rest.
Proof.
  intros Hh. destruct (setup_ok w) eqn:Hs.
  - destruct (run_success w argv Hh Hs) as (c & _ & Ev & _). eexists. exact Ev.
  - destruct (run_abort w argv Hh Hs) as (evs & _ & Ev & _). eexists. exact Ev.
Qed.

(** *** The size argument *)

Example atoi_plain : atoi "20" = 20.
Proof. reflexivity. Qed.

Example atoi_negative : atoi "  -7" = -7.
Proof. reflexivity. Qed.

Example atoi_prefix : atoi "12abc" = 12.
Proof. reflexivity. Qed.

Example atoi_none : atoi "abc" = 0 /\ parses_as_decimal "abc" = false.
Proof. split; reflexivity. Qed.

Example atoi_wraps : atoi "4294967297" = 1.
Proof. reflexivity. Qed.


Lemma digits_none r acc : first_is_digit r = false -> digits r acc = acc.
Proof.
  destruct r as [|c r]; cbn [first_is_digit digits]; [reflexivity|].
  destruct (digit_of c); [discriminate|reflexivity].
Qed.

Lemma atoi_no_conversion s : parses_as_decimal s = false -> atoi s = 0.
Proof.
  unfold atoi, strtol10, parses_as_decimal.
  destruct (skip_space s) as [|c r]; [reflexivity|].
  destruct c as [[] [] [] [] [] [] [] []]; intros H;
    first [ rewrite (digits_none _ 0 H); reflexivity
          | discriminate H ].
Qed.

Lemma hosts_ok_nonpos w n : n <= 0 -> hosts_ok w n = true.
Proof.
  intros H. unfold hosts_ok. apply orb_true_iff. left. now apply Z.leb_le.
Qed.

Lemma digit_of_char d : is_digit d -> digit_of (digit_char d) = Some d.
Proof.
  unfold is_digit. intros H.
  assert (E : d = 0 \/ d = 1 \/ d = 2 \/ d = 3 \/ d = 4 \/ d = 5 \/ d = 6 \/ d = 7
              \/ d = 8 \/ d = 9) by lia.
  repeat (destruct E as [->|E]; [reflexivity|]). now subst d.
Qed.

Lemma digits_numeral ds :
  Forall is_digit ds ->
  forall acc, digits (numeral ds) acc = fold_left (fun a d => a * 10 + d) ds acc.
Proof.
  induction 1 as [|d ds Hd _ IH]; intros acc; cbn [numeral digits fold_left];
    [reflexivity|].
  now rewrite (digit_of_char d Hd), IH.
Qed.

(** [atoi] reads a minus sign followed by decimal digits as the negative
    number they denote, as long as it is an [int]. *)
Lemma atoi_negative_numeral ds :
  ds <> [] -> Forall is_digit ds -> 0 < decimal_value ds <= 2147483648 ->
  parses_as_decimal (String "-" (numeral ds)) = true
  /\ atoi (String "-" (numeral ds)) = - decimal_value ds.
Proof.
  intros Hne Hd Hv. split.
  - destruct Hd as [|d ds Hd _]; [congruence|].
    replace (parses_as_decimal (String "-" (numeral (d :: ds))))
      with (first_is_digit (numeral (d :: ds))) by reflexivity.
    cbn [numeral first_is_digit]. now rewrite (digit_of_char d Hd).
  - unfold atoi.
    replace (strtol10 (String "-" (numeral ds)))
      with (clamp_long (- digits (numeral ds) 0)) by reflexivity.
    rewrite (digits_numeral ds Hd 0). fold (decimal_value ds).
    unfold clamp_long, LONG_MIN, LONG_MAX, to_int.
    rewrite Z.min_r, Z.max_r by lia.
    rewrite Z.mod_small by lia. lia.
Qed.

Lemma main_init_size w argv :
  hosts_ok w (size_arg argv) = true ->
  fst (main_init w argv initial) = Ret tt
  /\ glob (snd (main_init w argv initial)) SZ = size_arg argv.
Proof.
  intros H. rewrite main_init_ok by exact H. cbn [fst snd].
  split; [reflexivity|].
  unfold after_main_init, loaded. cbn [glob gupd gvar_eqb]. apply args_globals_SZ.
Qed.

(** What [main] does with the size it works with, on a run whose host
    vectors are there: the size is in [SZ] when [init] is done, the three
    host allocations ask for [N * sizeof (int)] bytes, and when set-up
    succeeds the buffers are sized the same, the kernel is given [N] as its
    size argument and is dispatched over [(size_t) N] work-items. *)
Lemma run_with_size w argv :
  hosts_ok w (size_arg argv) = true ->
  let n := size_arg argv in
  fst (main_init w argv initial) = Ret tt
  /\ glob (snd (main_init w argv initial)) SZ = n
  /\ malloc_sizes (firstn 3 (events w argv))
     = [size_mul sizeof_int (to_size_t n); size_mul sizeof_int (to_size_t n);
        size_mul sizeof_int (to_size_t n)]
  /\ (setup_ok w = true ->
      buffer_sizes (events w argv)
      = [size_mul (to_size_t n) sizeof_int; size_mul (to_size_t n) sizeof_int;
         size_mul (to_size_t n) sizeof_int]
      /\ size_bindings (events w argv) = [n]
      /\ launch_sizes (events w argv) = [to_size_t n]
      /\ exit_status w argv = Exited 0).
Proof.
  intros Hh n. subst n.
  destruct (main_init_size w argv Hh) as (R & G).
  split; [exact R|]. split; [exact G|]. split.
  { destruct (run_prefix w argv Hh) as (rest & Ev). rewrite Ev. reflexivity. }
  intros Hs. destruct (run_success w argv Hh Hs) as (c & Ex & Ev & Hc). rewrite Ev.
  split; [observe; reflexivity|].
  split; [unfold size_bindings; observe; reflexivity|].
  split; [observe; reflexivity|exact Ex].
Qed.

(** C9.  With one argument [main] stores [atoi (argument)] in [SZ] and works
    with it as [N], whatever it is: on every run whose host vectors are
    there, [SZ] holds it once [init] is done, each host allocation asks for
    [N * sizeof (int)] bytes and, when set-up succeeds, the buffers are
    sized the same, the kernel is given [N] as its size and is dispatched
    over [(size_t) N] work-items, and the run ends with status 0.  When no
    decimal integer can be converted the program so runs with [N = 0]:
    zero-byte allocations and buffers, a dispatch over no work-item.  A
    negative [N] is not validated: no host allocation needs to succeed, the
    allocations and buffers are asked for 2^64 - 4 |N| bytes and the kernel
    is dispatched over 2^64 - |N| work-items.  Negative values do arrive:
    a minus sign and the digits of any number up to 2^31 are converted to
    its negative. *)
Theorem C9_size_argument_is_not_validated w prog arg :
  let argv := [prog; arg] in
  let n := atoi arg in
  let host_bytes := size_mul sizeof_int (to_size_t n) in
  let dev_bytes := size_mul (to_size_t n) sizeof_int in
  is_int n
  /\ (hosts_ok w n = true ->
      fst (main_init w argv initial) = Ret tt
      /\ glob (snd (main_init w argv initial)) SZ = n
      /\ malloc_sizes (firstn 3 (events w argv)) = [host_bytes; host_bytes; host_bytes]
      /\ (setup_ok w = true ->
          buffer_sizes (events w argv) = [dev_bytes; dev_bytes; dev_bytes]
          /\ size_bindings (events w argv) = [n]
          /\ launch_sizes (events w argv) = [to_size_t n]
          /\ exit_status w argv = Exited 0))
  /\ (parses_as_decimal arg = false ->
      fst (main_init w argv initial) = Ret tt
      /\ glob (snd (main_init w argv initial)) SZ = 0
      /\ malloc_sizes (firstn 3 (events w argv)) = [0; 0; 0]
      /\ (setup_ok w = true ->
          buffer_sizes (events w argv) = [0; 0; 0]
          /\ size_bindings (events w argv) = [0]
          /\ launch_sizes (events w argv) = [0]
          /\ exit_status w argv = Exited 0))
  /\ (n < 0 ->
      hosts_ok w n = true
      /\ fst (main_init w argv initial) = Ret tt
      /\ glob (snd (main_init w argv initial)) SZ = n
      /\ firstn 3 (events w argv) = init_trace w n
      /\ malloc_sizes (firstn 3 (events w argv))
         = [SIZE_MODULUS + n * 4; SIZE_MODULUS + n * 4; SIZE_MODULUS + n * 4]
      /\ (setup_ok w = true ->
          buffer_sizes (events w argv)
          = [SIZE_MODULUS + n * 4; SIZE_MODULUS + n * 4; SIZE_MODULUS + n * 4]
          /\ size_bindings (events w argv) = [n]
          /\ launch_sizes (events w argv) = [SIZE_MODULUS + n]
          /\ exit_status w argv = Exited 0))
  /\ (forall ds, ds <> [] -> Forall is_digit ds -> 0 < decimal_value ds <= 2147483648 ->
      parses_as_decimal (String "-" (numeral ds)) = true
      /\ atoi (String "-" (numeral ds)) = - decimal_value ds).
Proof.
  intros argv n host_bytes dev_bytes. subst host_bytes dev_bytes.
  assert (Hsz : size_arg argv = n) by reflexivity.
  pose proof (atoi_int arg) as I. fold n in I.
  assert (General : hosts_ok w n = true ->
    fst (main_init w argv initial) = Ret tt
    /\ glob (snd (main_init w argv initial)) SZ = n
    /\ malloc_sizes (firstn 3 (events w argv))
       = [size_mul sizeof_int (to_size_t n); size_mul sizeof_int (to_size_t n);
          size_mul sizeof_int (to_size_t n)]
    /\ (setup_ok w = true ->
        buffer_sizes (events w argv)
        = [size_mul (to_size_t n) sizeof_int; size_mul (to_size_t n) sizeof_int;
           size_mul (to_size_t n) sizeof_int]
        /\ size_bindings (events w argv) = [n]
        /\ launch_sizes (events w argv) = [to_size_t n]
        /\ exit_status w argv = Exited 0)).
  { intros Hh. rewrite <- Hsz. apply run_with_size. now rewrite Hsz. }
  split; [exact I|]. split; [exact General|]. split; [|split].
  - intros P. pose proof (atoi_no_conversion arg P) as Z0. fold n in Z0.
    destruct (General (hosts_ok_nonpos w n ltac:(lia))) as (R & G & M & S).
    rewrite Z0 in G, M, S.
    split; [exact R|]. split; [exact G|]. split; [exact M|]. exact S.
  - intros Hneg.
    assert (Hh : hosts_ok w n = true) by (apply hosts_ok_nonpos; lia).
    assert (Rg : INT_MIN <= n < 0) by (unfold is_int in I; lia).
    destruct (General Hh) as (R & G & M & S).
    rewrite (size_mul_comm sizeof_int), (bytes_neg n Rg) in M.
    rewrite (bytes_neg n Rg), (to_size_t_neg n Rg) in S.
    split; [exact Hh|]. split; [exact R|]. split; [exact G|]. split.
    { rewrite <- Hsz in Hh. destruct (run_prefix w argv Hh) as (rest & Ev).
      rewrite Ev. reflexivity. }
    split; [exact M|exact S].
  - apply atoi_negative_numeral.
Qed.

Lemma C9_witness :
  (parses_as_decimal "abc" = false
   /\ glob (snd (main_init ideal ["prog"; "abc"]%string initial)) SZ = 0
   /\ setup_ok ideal = true
   /\ buffer_sizes (events ideal ["prog"; "abc"]%string) = [0; 0; 0]
   /\ launch_sizes (events ideal ["prog"; "abc"]%string) = [0]
   /\ exit_status ideal ["prog"; "abc"]%string = Exited 0)
  /\ (atoi "-7" < 0
      /\ glob (snd (main_init ideal ["prog"; "-7"]%string initial)) SZ = -7
      /\ malloc_sizes (firstn 3 (events ideal ["prog"; "-7"]%string))
         = [18446744073709551588; 18446744073709551588; 18446744073709551588]
      /\ launch_sizes (events ideal ["prog"; "-7"]%string) = [18446744073709551609]
      /\ exit_status ideal ["prog"; "-7"]%string = Exited 0)
  /\ (hosts_ok ideal (atoi "12") = true
      /\ size_bindings (events ideal ["prog"; "12"]%string) = [12]
      /\ launch_sizes (events ideal ["prog"; "12"]%string) = [12])
  /\ atoi (String "-" (numeral [4; 2])) = -42.
Proof.
  split; [|split; [|split]].
  - destruct (C9_size_argument_is_not_validated ideal "prog" "abc") as (_ & _ & U & _).
    destruct (U eq_refl) as (_ & G & _ & S). destruct (S eq_refl) as (B & _ & L & Ex).
    split; [reflexivity|]. split; [exact G|]. split; [reflexivity|].
    split; [exact B|]. split; [exact L|exact Ex].
  - destruct (C9_size_argument_is_not_validated ideal "prog" "-7") as (_ & _ & _ & N & _).
    destruct (N eq_refl) as (_ & _ & G & _ & M & S). destruct (S eq_refl) as (_ & _ & L & Ex).
    split; [reflexivity|]. split; [exact G|]. split; [exact M|].
    split; [exact L|exact Ex].
  - destruct (C9_size_argument_is_not_validated ideal "prog" "12") as (_ & Gn & _).
    destruct (Gn eq_refl) as (_ & _ & _ & S). destruct (S eq_refl) as (_ & Bd & L & _).
    split; [reflexivity|]. split; [exact Bd|exact L].
  - destruct (C9_size_argument_is_not_validated ideal "prog" "-7") as (_ & _ & _ & _ & D).
    refine (proj2 (D [4; 2] _ _ _)).
    + discriminate.
    + repeat constructor; unfold is_digit; lia.
    + cbv. split; [reflexivity|discriminate].
Defined.

(** *** The pseudo-random inputs *)

Lemma fill_ext w1 w2 n :
  w_rand w1 = w_rand w2 -> forall i k p h, fill w1 n i k p h = fill w2 n i k p h.
Proof.
  intros H. induction n as [|n IH]; intros i k p h; cbn [fill]; [reflexivity|].
  now rewrite H, IH.
Qed.

Lemma vector_nil m n : n <= 0 -> vector m n = [].
Proof.
  intros H. unfold vector. replace (Z.to_nat n) with O by lia. reflexivity.
Qed.

Lemma vector_ext m1 m2 n :
  (forall i, 0 <= i < n -> m1 i = m2 i) -> vector m1 n = vector m2 n.
Proof.
  intros H. unfold vector, slice. apply map_ext_in. intros k Hk.
  apply in_seq in Hk. apply H. lia.
Qed.

Lemma hosts_ok_pos w n :
  0 < n -> hosts_ok w n = true ->
  host_ptr w v1 = 1 /\ host_ptr w v2 = 2 /\ host_ptr w v_out = 3.
Proof.
  unfold hosts_ok. intros Hn H. apply orb_true_iff in H. destruct H as [H|H].
  - apply Z.leb_le in H. lia.
  - apply negb_true_iff in H. apply orb_false_iff in H. destruct H as [H H3].
    apply orb_false_iff in H. destruct H as [H1 H2].
    unfold host_ptr, new_handle. now rewrite H1, H2, H3.
Qed.

Lemma fault_free_hosts_ok w n : fault_free w -> hosts_ok w n = true.
Proof.
  intros F. unfold hosts_ok. rewrite !(fun s => failed_free w s F).
  apply orb_true_r.
Qed.

Lemma host_heap_ext w1 w2 n :
  w_rand w1 = w_rand w2 -> 0 < n ->
  hosts_ok w1 n = true -> hosts_ok w2 n = true ->
  host_heap w1 n = host_heap w2 n.
Proof.
  intros Hr Hn H1 H2.
  destruct (hosts_ok_pos w1 n Hn H1) as (A1 & B1 & C1).
  destruct (hosts_ok_pos w2 n Hn H2) as (A2 & B2 & C2).
  unfold host_heap. rewrite A1, B1, C1, A2, B2, C2.
  now rewrite !(fill_ext w1 w2 _ Hr).
Qed.

(** The inputs are the pseudo-random numbers modulo 100, in the order in
    which they are drawn: first all of [v1], then all of [v2]. *)
Lemma host_heap_inputs w n i :
  hosts_ok w n = true -> 0 <= i < n ->
  host_heap w n (host_ptr w v1) i = Z.rem (w_rand w (Z.to_nat i)) 100
  /\ host_heap w n (host_ptr w v2) i = Z.rem (w_rand w (Z.to_nat n + Z.to_nat i)) 100.
Proof.
  intros H Hi.
  destruct (hosts_ok_pos w n ltac:(lia) H) as (A & B & C).
  unfold host_heap. rewrite A, B, C. rewrite !fill_at.
  replace (Z.of_nat (Z.to_nat n)) with n by lia.
  split; zcases; try lia; f_equal; f_equal; lia.
Qed.

(** The whole run when nothing fails. *)
Lemma run_fault_free w argv :
  fault_free w -> 1 <= size_arg argv ->
  glob (final w argv) v_out = 3
  /\ forall i, 0 <= i < size_arg argv ->
       heap (final w argv) 3 i
       = add_int (host_heap w (size_arg argv) 1 i) (host_heap w (size_arg argv) 2 i).
Proof.
  intros F Hn.
  pose proof (fault_free_hosts_ok w (size_arg argv) F) as Hh.
  destruct (hosts_ok_pos w (size_arg argv) ltac:(lia) Hh) as (A & B & C).
  pose proof (size_arg_int argv) as I. unfold is_int in I.
  destruct (main_compute_sum w (args_globals argv) (size_arg argv) 1 2 3
              (host_heap w (size_arg argv))
              (0 + Z.to_nat (size_arg argv) + Z.to_nat (size_arg argv)
               + Z.to_nat (size_arg argv))%nat
              (init_trace w (size_arg argv)) F (args_globals_SZ argv)
              ltac:(lia) ltac:(lia) ltac:(lia) ltac:(lia))
    as (st' & E & G & Hsum).
  unfold final, run, main, bind. cbv zeta.
  rewrite main_init_ok by exact Hh. unfold after_main_init.
  rewrite A, B, C, E. cbn [fst snd]. split; assumption.
Qed.

(** C10.  Two runs with the same length [N], on the same C library (hence
    the same sequence of an unseeded [rand ()]), initialise the same input
    vectors, whatever else differs between the runs: element [i] of the
    first is the [i]-th pseudo-random number modulo 100, element [i] of the
    second the [(N + i)]-th.  When in addition no call fails in either run,
    the output vectors at the end of the runs are equal too. *)
Theorem C10_inputs_repeat_across_runs w1 w2 argv1 argv2 :
  w_rand w1 = w_rand w2 ->
  size_arg argv1 = size_arg argv2 ->
  hosts_ok w1 (size_arg argv1) = true -> hosts_ok w2 (size_arg argv2) = true ->
  let n := size_arg argv1 in
  let s1 := snd (main_init w1 argv1 initial) in
  let s2 := snd (main_init w2 argv2 initial) in
  vector (heap s1 (glob s1 v1)) n = vector (heap s2 (glob s2 v1)) n
  /\ vector (heap s1 (glob s1 v2)) n = vector (heap s2 (glob s2 v2)) n
  /\ (forall i, (i < Z.to_nat n)%nat ->
      nth i (vector (heap s1 (glob s1 v1)) n) 0 = Z.rem (w_rand w1 i) 100
      /\ nth i (vector (heap s1 (glob s1 v2)) n) 0 = Z.rem (w_rand w1 (Z.to_nat n + i)) 100)
  /\ (fault_free w1 -> fault_free w2 ->
      vector (heap (final w1 argv1) (glob (final w1 argv1) v_out)) n
      = vector (heap (final w2 argv2) (glob (final w2 argv2) v_out)) n).
Proof.
  intros Hr Hsz H1 H2 n s1 s2. subst s1 s2.
  rewrite !main_init_ok by assumption. unfold after_main_init. cbn [snd].
  unfold loaded. cbn [glob heap gupd gvar_eqb].
  rewrite <- Hsz in *. fold n in H1, H2 |- *.
  destruct (Z_le_gt_dec n 0) as [Hn|Hn].
  - rewrite !(vector_nil _ n Hn). repeat split; try reflexivity; intros; lia.
  - pose proof (host_heap_ext w1 w2 n Hr ltac:(lia) H1 H2) as HH.
    destruct (hosts_ok_pos w1 n ltac:(lia) H1) as (A1 & B1 & C1).
    destruct (hosts_ok_pos w2 n ltac:(lia) H2) as (A2 & B2 & C2).
    rewrite A1, B1, A2, B2.
    split; [now rewrite HH|]. split; [now rewrite HH|]. split.
    + intros i Hi. rewrite !nth_vector by exact Hi.
      destruct (host_heap_inputs w1 n (Z.of_nat i) H1 ltac:(lia)) as (E1 & E2).
      rewrite A1 in E1. rewrite B1 in E2. rewrite E1, E2.
      now rewrite Nat2Z.id.
    + intros F1 F2.
      destruct (run_fault_free w1 argv1 F1 ltac:(fold n; lia)) as (G1 & S1).
      destruct (run_fault_free w2 argv2 F2 ltac:(rewrite <- Hsz; fold n; lia))
        as (G2 & S2).
      rewrite G1, G2. apply vector_ext. intros i Hi.
      rewrite S1 by (fold n; lia). rewrite S2 by (rewrite <- Hsz; fold n; lia).
      rewrite <- Hsz. fold n. now rewrite HH.
Qed.

Lemma C10_witness :
  w_rand ideal = w_rand binding_fails
  /\ size_arg ["prog"; "4"]%string = size_arg ["./a.out"; " 4 "]%string
  /\ hosts_ok ideal (size_arg ["prog"; "4"]%string) = true
  /\ hosts_ok binding_fails (size_arg ["./a.out"; " 4 "]%string) = true
  /\ vector (heap (snd (main_init ideal ["prog"; "4"]%string initial))
              (glob (snd (main_init ideal ["prog"; "4"]%string initial)) v1)) 4
     = vector (heap (snd (main_init binding_fails ["./a.out"; " 4 "]%string initial))
                (glob (snd (main_init binding_fails ["./a.out"; " 4 "]%string initial)) v1)) 4.
Proof.
  split; [reflexivity|]. split; [reflexivity|]. split; [reflexivity|].
  split; [reflexivity|].
  exact (proj1 (C10_inputs_repeat_across_runs ideal binding_fails
                  ["prog"; "4"]%string ["./a.out"; " 4 "]%string
                  eq_refl eq_refl eq_refl eq_refl)).
Defined.

(** *** Teardown *)

Lemma hosts_not_ok w n :
  hosts_ok w n = false ->
  0 < n /\ (failed w (at_malloc v1) = true \/ failed w (at_malloc v2) = true
            \/ failed w (at_malloc v_out) = true).
Proof.
  unfold hosts_ok. intros H. apply orb_false_iff in H. destruct H as [Hn H].
  apply Z.leb_gt in Hn. split; [exact Hn|].
  apply negb_false_iff in H.
  destruct (failed w (at_malloc v1)); [now left|].
  destruct (failed w (at_malloc v2)); [right; now left|].
  right. right. exact H.
Qed.

Lemma new_handle_failed w s f : failed w s = true -> new_handle w s f = NULL.
Proof. unfold new_handle. now intros ->. Qed.

Lemma new_handle_not_failed w s f : failed w s = false -> new_handle w s f <> NULL.
Proof. unfold new_handle. intros ->. discriminate. Qed.

(** A host allocation that fails with something to write stops the run with
    a crash. *)
Lemma three_inits_crash w g0 n :
  g0 SZ = n -> hosts_ok w n = false ->
  exists st',
    (n <- get SZ ;; init w v1 n ;;
     n <- get SZ ;; init w v2 n ;;
     n <- get SZ ;; init w v_out n) (set_glob g0 initial) = (Crash, st').
Proof.
  intros Hn H. destruct (hosts_not_ok w n H) as (Hpos & Hf).
  unfold bind at 1. unfold get at 1. cbn [glob set_glob]. rewrite Hn.
  unfold bind at 1.
  destruct (failed w (at_malloc v1)) eqn:F1.
  { destruct (init_crash w v1 n (set_glob g0 initial)
                (new_handle_failed _ _ _ F1) Hpos) as (st' & E & _).
    rewrite E. eauto. }
  rewrite init_spec by (left; now apply new_handle_not_failed).
  unfold bind at 1. unfold get at 1.
  replace (glob (after_init _ _ _ _) SZ) with n by (symmetry; exact Hn).
  unfold bind at 1.
  destruct (failed w (at_malloc v2)) eqn:F2.
  { destruct (init_crash w v2 n (after_init w v1 n (set_glob g0 initial))
                (new_handle_failed _ _ _ F2) Hpos) as (st' & E & _).
    rewrite E. eauto. }
  rewrite init_spec by (left; now apply new_handle_not_failed).
  unfold bind at 1. unfold get at 1.
  replace (glob (after_init _ _ _ _) SZ) with n by (symmetry; exact Hn).
  destruct Hf as [Hf|[Hf|Hf]]; try congruence.
  destruct (init_crash w v_out n
              (after_init w v2 n (after_init w v1 n (set_glob g0 initial)))
              (new_handle_failed _ _ _ Hf) Hpos) as (st' & E & _).
  rewrite E. eauto.
Qed.

Lemma run_crash w argv :
  hosts_ok w (size_arg argv) = false -> exit_status w argv = Crashed.
Proof.
  intros H.
  destruct (three_inits_crash w (args_globals argv) (size_arg argv)
              (args_globals_SZ argv) H) as (st' & E).
  unfold exit_status, run, main. cbv zeta. unfold bind at 1.
  assert (E' : main_init w argv initial = (Crash, st')).
  { rewrite <- E. unfold main_init, args_globals.
    destruct (1 <? Z.of_nat (List.length argv)); reflexivity. }
  rewrite E'. reflexivity.
Qed.

Lemma hosts_allocated_ok w n : hosts_allocated w = true -> hosts_ok w n = true.
Proof. unfold hosts_allocated, hosts_ok. intros ->. apply orb_true_r. Qed.

(** C5 as the specification states it, refuted: when the kernel source file
    is missing the context and the host vectors are created and never
    released; when a buffer cannot be allocated, its null handle is released
    all the same. *)
Lemma C5_counterexample :
  ~ (releases_each_once (events no_source ["prog"; "3"]%string)
     /\ releases_only_created (events no_source ["prog"; "3"]%string))
  /\ ~ (releases_each_once (events memory_fails ["prog"; "3"]%string)
        /\ releases_only_created (events memory_fails ["prog"; "3"]%string)).
Proof.
  split.
  - intros [H _]. specialize (H 5). vm_compute in H.
    assert (X : (0 = 1)%nat) by (apply H; auto 8). discriminate X.
  - intros [_ H]. specialize (H NULL). vm_compute in H.
    assert (X : 1 = 0 \/ 2 = 0 \/ 3 = 0 \/ 5 = 0 \/ 7 = 0 \/ 8 = 0 \/ 9 = 0
                \/ 10 = 0 \/ 12 = 0 \/ 13 = 0 \/ False) by (apply H; auto 8).
    repeat (destruct X as [X|X]; [discriminate X|]). exact X.
Qed.

Lemma new_handle_created w s f : failed w s = false -> new_handle w s f = Z.pos f.
Proof. unfold new_handle. now intros ->. Qed.

Lemma host_ptr_small w g : host_ptr w g < 5.
Proof.
  unfold host_ptr, new_handle, NULL.
  destruct (failed w (at_malloc g)); [lia|]. destruct g; lia.
Qed.

Ltac each_handle :=
  let h := fresh "h" in
  let Hin := fresh "Hin" in
  intros h Hin; cbn [In] in Hin;
  repeat (destruct Hin as [<-|Hin]; [first [reflexivity | cbn [In]; auto 14]|]);
  contradiction.

(** C5, amended.  When the host vectors, every object of the set-up and the
    three buffers are created, the run reaches [free_memory], which releases
    the three buffers, the kernel, the queue, the program, the context and
    the three host vectors, in this order, each exactly once, and nothing
    that was not created.  When the run ends with [exit (1)] instead,
    [free_memory] is not run: no [clRelease*] call is made and no host
    vector is freed; what was released by then (a temporary buffer of
    [build_program]) had been created, and was released once. *)
Theorem C5_teardown w argv :
  (hosts_allocated w = true -> setup_ok w = true -> buffers_ok w = true ->
   exit_status w argv = Exited 0
   /\ releases_each_once (events w argv)
   /\ releases_only_created (events w argv)
   /\ exists tmp b1 b2 b3 k q p c,
        released (events w argv)
        = [tmp; b1; b2; b3; k; q; p; c;
           host_ptr w v1; host_ptr w v2; host_ptr w v_out]
        /\ filter is_clRelease (events w argv)
           = [Call_clRelease MemObject b1; Call_clRelease MemObject b2;
              Call_clRelease MemObject b3; Call_clRelease Kernel k;
              Call_clRelease CommandQueue q; Call_clRelease Program p;
              Call_clRelease Context c])
  /\ (exit_status w argv = Exited 1 ->
      filter is_clRelease (events w argv) = []
      /\ forall h, In h (released (events w argv)) ->
           In h (created (events w argv))
           /\ count_occ Z.eq_dec (released (events w argv)) h = 1%nat
           /\ forall g, h <> host_ptr w g).
Proof.
  split.
  - intros Ha Hs Hb.
    pose proof (hosts_allocated_ok w (size_arg argv) Ha) as Hh.
    destruct (run_success w argv Hh Hs) as (c & Ex & Ev & Hc).
    split; [exact Ex|]. rewrite Ev. clear Ev Ex Hc.
    unfold hosts_allocated in Ha. apply negb_true_iff in Ha.
    apply orb_false_iff in Ha. destruct Ha as [Ha A3].
    apply orb_false_iff in Ha. destruct Ha as [A1 A2].
    unfold buffers_ok in Hb. apply negb_true_iff in Hb.
    apply orb_false_iff in Hb. destruct Hb as [Hb B3].
    apply orb_false_iff in Hb. destruct Hb as [B1 B2].
    unfold releases_each_once, releases_only_created.
    assert (P1 : host_ptr w v1 = 1) by (unfold host_ptr; now rewrite new_handle_created).
    assert (P2 : host_ptr w v2 = 2) by (unfold host_ptr; now rewrite new_handle_created).
    assert (P3 : host_ptr w v_out = 3)
      by (unfold host_ptr; now rewrite new_handle_created).
    observe.
    all: rewrite !(new_handle_created w _ _ B1), !(new_handle_created w _ _ B2),
           !(new_handle_created w _ _ B3), ?P1, ?P2, ?P3.
    all: cbn [created_by released_by app flat_map Z.eqb NULL Pos.add Pos.succ Pos.add_carry].
    all: (split; [each_handle|]); (split; [each_handle|]).
    all: do 8 eexists; split; reflexivity.
  - intros Ex.
    destruct (hosts_ok w (size_arg argv)) eqn:Hh;
      [|rewrite (run_crash w argv Hh) in Ex; discriminate Ex].
    destruct (setup_ok w) eqn:Hs.
    { destruct (run_success w argv Hh Hs) as (c & Ex' & _).
      rewrite Ex' in Ex. discriminate Ex. }
    destruct (run_abort w argv Hh Hs) as (evs & _ & Ev & Hq & Hr).
    rewrite Ev. unfold released, created, init_trace.
    rewrite !filter_app, !flat_map_app.
    rewrite !filter_printed by reflexivity.
    rewrite !flat_map_printed by reflexivity.
    cbn [filter is_clRelease flat_map released_by app].
    fold (released evs). fold (created evs).
    split; [exact Hq|].
    intros h Hin. destruct (Hr h Hin) as (H5 & Hc & Ho).
    split; [apply in_or_app; right; exact Hc|]. split; [exact Ho|].
    intros g. pose proof (host_ptr_small w g). lia.
Qed.

Lemma C5_witness :
  (hosts_allocated ideal = true /\ setup_ok ideal = true /\ buffers_ok ideal = true
   /\ released (events ideal ["prog"; "3"]%string) = [7; 11; 12; 13; 10; 9; 8; 5; 1; 2; 3]
   /\ releases_each_once (events ideal ["prog"; "3"]%string))
  /\ (exit_status no_source ["prog"; "3"]%string = Exited 1
      /\ filter is_clRelease (events no_source ["prog"; "3"]%string) = []).
Proof.
  split.
  - split; [reflexivity|]. split; [reflexivity|]. split; [reflexivity|].
    split; [reflexivity|].
    exact (proj1 (proj2 (proj1 (C5_teardown ideal ["prog"; "3"]%string)
                           eq_refl eq_refl eq_refl))).
  - split; [reflexivity|].
    exact (proj1 (proj2 (C5_teardown no_source ["prog"; "3"]%string) eq_refl)).
Defined.




(** * Further properties of the functions *)

Lemma skipn_length_app {A} (l r : list A) : skipn (List.length l) (l ++ r) = r.
Proof. induction l as [|a l IH]; [reflexivity|exact IH]. Qed.

Lemma emitted_logs {A} (m : M A) st o evs :
  m st = (o, logs evs st) -> emitted m st = evs.
Proof.
  intros E. unfold emitted. rewrite E. cbn [snd logs trace]. apply skipn_length_app.
Qed.

Lemma gvar_eqb_eq a b : gvar_eqb a b = true <-> a = b.
Proof. destruct a, b; cbn; split; intros H; try reflexivity; discriminate H. Qed.

Lemma gupd_other f g v x : x <> g -> gupd f g v x = f x.
Proof.
  intros H. unfold gupd. destruct (gvar_eqb x g) eqn:E; [|reflexivity].
  apply gvar_eqb_eq in E. contradiction.
Qed.

(** *** [init] *)

(** X1.  When [init] returns, the global [A] points to the new block, whose
    elements 0 .. size-1 are the next [size] pseudo-random numbers modulo
    100, in order, each in [0, 100) since [rand ()] is never negative;
    exactly [size] numbers were drawn (none for [size <= 0]); no other
    block, no other element of the block and no other global has changed. *)
Theorem X1_init_fills_in_order w A size st :
  new_handle w (at_malloc A) (fresh st) <> NULL \/ size <= 0 ->
  (forall k, 0 <= w_rand w k) ->
  let st' := snd (init w A size st) in
  fst (init w A size st) = Ret tt
  /\ glob st' A = new_handle w (at_malloc A) (fresh st)
  /\ nrand st' = (nrand st + Z.to_nat size)%nat
  /\ (forall i, 0 <= i < size ->
       heap st' (glob st' A) i = Z.rem (w_rand w (nrand st + Z.to_nat i)) 100
       /\ 0 <= heap st' (glob st' A) i < 100)
  /\ (forall i, ~ 0 <= i < size -> heap st' (glob st' A) i = heap st (glob st' A) i)
  /\ (forall p i, p <> glob st' A -> heap st' p i = heap st p i)
  /\ (forall g, g <> A -> glob st' g = glob st g).
Proof.
  intros H Hr st'. subst st'. rewrite init_spec by exact H.
  cbn [fst snd]. unfold after_init. cbn [glob heap nrand].
  rewrite gupd_same.
  split; [reflexivity|]. split; [reflexivity|]. split; [reflexivity|].
  split; [|split; [|split]].
  - intros i Hi. rewrite fill_at.
    replace (Z.of_nat (Z.to_nat size)) with size by lia.
    rewrite Z.eqb_refl. cbn [andb].
    replace (0 <=? i) with true by (symmetry; apply Z.leb_le; lia).
    replace (i <? 0 + size) with true by (symmetry; apply Z.ltb_lt; lia).
    cbn [andb]. rewrite Z.sub_0_r. split; [reflexivity|].
    pose proof (Hr (nrand st + Z.to_nat i)%nat) as Hk.
    pose proof (Z.rem_bound_pos (w_rand w (nrand st + Z.to_nat i)) 100 Hk ltac:(lia)).
    lia.
  - intros i Hi. rewrite fill_at. zcases; try reflexivity. lia.
  - intros p i Hp. rewrite fill_at. zcases; try reflexivity. contradiction.
  - intros g Hg. now apply gupd_other.
Qed.

Lemma X1_witness :
  (new_handle ideal (at_malloc v1) (fresh initial) <> NULL \/ 3 <= 0)
  /\ (forall k, 0 <= w_rand ideal k)
  /\ fst (init ideal v1 3 initial) = Ret tt
  /\ nrand (snd (init ideal v1 3 initial)) = 3%nat.
Proof.
  assert (H : new_handle ideal (at_malloc v1) (fresh initial) <> NULL \/ 3 <= 0)
    by (left; discriminate).
  assert (Hr : forall k, 0 <= w_rand ideal k) by (intros k; cbn; lia).
  split; [exact H|]. split; [exact Hr|].
  destruct (X1_init_fills_in_order ideal v1 3 initial H Hr) as (E & _ & N & _).
  split; [exact E|exact N].
Defined.


(** *** [print] *)

Lemma slice_agree m1 m2 lo n :
  (forall i, lo <= i < lo + Z.of_nat n -> m1 i = m2 i) -> slice m1 lo n = slice m2 lo n.
Proof.
  intros H. unfold slice. apply map_ext_in. intros k Hk. apply in_seq in Hk.
  apply H. lia.
Qed.

(** X3.  For a vector of more than 15 elements [print] makes exactly twelve
    [printf] calls, returns, and changes nothing but the console; what it
    prints depends on the first five and the last five elements only: the
    elements in between are never read. *)
Theorem X3_print_reads_only_the_ends A size st1 st2 :
  A <> NULL -> 15 < size ->
  (forall i, 0 <= i < 5 \/ size - 5 <= i < size -> heap st1 A i = heap st2 A i) ->
  print A size st1 = (Ret tt, logs (emitted (print A size) st1) st1)
  /\ List.length (emitted (print A size) st1) = 12%nat
  /\ emitted (print A size) st1 = emitted (print A size) st2.
Proof.
  intros HA Hs Hag.
  assert (E : forall st, emitted (print A size) st
                         = map elt (slice (heap st A) 0 5) ++ [ellipsis]
                           ++ map elt (slice (heap st A) (size - 5) 5) ++ [separator]).
  { intros st. rewrite (emitted_logs _ _ _ _ (print_spec A size st (or_introl HA))).
    rewrite printed_vector.
    replace (15 <? size) with true by (symmetry; apply Z.ltb_lt; lia).
    now rewrite <- !app_assoc. }
  split; [|split].
  - rewrite (emitted_logs _ _ _ _ (print_spec A size st1 (or_introl HA))).
    apply print_spec. now left.
  - rewrite E. rewrite !length_app, !length_map, !slice_length. reflexivity.
  - rewrite !E.
    rewrite (slice_agree (heap st1 A) (heap st2 A) 0 5) by (intros; apply Hag; lia).
    rewrite (slice_agree (heap st1 A) (heap st2 A) (size - 5) 5)
      by (intros; apply Hag; lia).
    reflexivity.
Qed.

Lemma X3_witness :
  (1 <> NULL) /\ 15 < 20
  /\ List.length (emitted (print 1 20) (logs [] (set_heap sample_heap initial))) = 12%nat.
Proof.
  split; [discriminate|]. split; [lia|].
  exact (proj1 (proj2 (X3_print_reads_only_the_ends 1 20
                         (logs [] (set_heap sample_heap initial))
                         (logs [] (set_heap sample_heap initial))
                         ltac:(discriminate) ltac:(lia) (fun i _ => eq_refl)))).
Defined.

(** X4.  [print] dereferences its pointer without a test: on a null vector
    with a positive size it crashes at the first element, before anything is
    printed; with [size <= 0] no element is read, so even a null vector
    prints the separator line alone and [print] returns. *)
Theorem X4_print_null_vector size st :
  (0 < size -> print NULL size st = (Crash, st))
  /\ (size <= 0 -> forall A, print A size st = (Ret tt, logs [separator] st)).
Proof.
  split.
  - intros Hs. unfold print, PRINT, for_range. cbn [Z.eqb andb Pos.eqb].
    destruct (15 <? size) eqn:E.
    + replace (Z.to_nat (5 - 0)) with 5%nat by reflexivity. reflexivity.
    + rewrite Z.sub_0_r. destruct (Z.to_nat size) as [|n] eqn:En; [lia|]. reflexivity.
  - intros Hs A. rewrite print_spec by (right; exact Hs).
    now rewrite vector_nil by exact Hs.
Qed.

Lemma X4_witness :
  0 < 20 /\ print NULL 20 initial = (Crash, initial).
Proof.
  split; [lia|]. exact (proj1 (X4_print_null_vector 20 initial) ltac:(lia)).
Defined.

(** *** [free_memory] *)




(** *** [copy_kernel_args] *)

(** X6.  [copy_kernel_args] binds the four arguments in index order: the
    size as an [int] of 4 bytes, then the three buffer handles as 8-byte
    [cl_mem] values, all on the kernel the global holds.  The test that
    follows reads the global [err], which none of the four calls assigns:
    whether the function exits with status 1 depends on the value [err] had
    on entry alone, never on the statuses of the bindings; an argument is
    bound exactly when its own call did not fail.  Globals, host memory and
    device memory are left alone. *)
Theorem X6_copy_kernel_args_tests_stale_err w st :
  let st' := snd (copy_kernel_args w st) in
  fst (copy_kernel_args w st) = (if glob st err <? 0 then Exit 1 else Ret tt)
  /\ emitted (copy_kernel_args w) st
     = bindings w (glob st)
       ++ (if glob st err <? 0
           then [Perror "Couldn't create a kernel argument";
                 Printf "error = %d" [AInt (glob st err)]]
           else [])
  /\ (forall i, In i [0; 1; 2; 3] ->
        kargs st' i = if failed w (at_clSetKernelArg i) then kargs st i
                      else Some (bound_value (glob st) i))
  /\ glob st' = glob st /\ heap st' = heap st /\ dmem st' = dmem st.
Proof.
  destruct st as [g h d a f nr nc t].
  unfold emitted, bindings, copy_kernel_args. exec.
  destruct (g err) as [|p|p]; exec.
  all: rewrite <- ?app_assoc; cbn [app]; rewrite skipn_length_app.
  all: split; [reflexivity|]; split; [reflexivity|].
  all: (split; [|repeat split]).
  all: intros i Hi; cbn [In] in Hi.
  all: destruct Hi as [<-|[<-|[<-|[<-|[]]]]]; unfold upd_if, bound_value;
    cbn [Z.eqb Pos.eqb andb].
  all: repeat match goal with |- context [failed ?w ?s] => destruct (failed w s) end;
    reflexivity.
Qed.

(** *** [setup_kernel_memory] *)

Lemma upd_if_other {V} c (f : Z -> V) k v x : x <> k -> upd_if c f k v x = f x.
Proof. unfold upd_if. intros H. apply Z.eqb_neq in H. now rewrite H. Qed.

Lemma upd_if_same {V} (f : Z -> V) k v : upd_if true f k v k = v.
Proof. unfold upd_if. now rewrite Z.eqb_refl. Qed.

Lemma dev_write_other c m buf n src x : x <> buf -> dev_write c m buf n src x = m x.
Proof.
  unfold dev_write. intros H. destruct (m buf); [|reflexivity].
  destruct c; [|reflexivity]. now apply upd_other.
Qed.

Lemma dev_write_same m buf n src old :
  m buf = Some old -> dev_write true m buf n src buf = Some (blit n src old).
Proof. unfold dev_write. intros ->. apply upd_same. Qed.

Lemma elements_of_bytes n : 0 <= n <= INT_MAX -> size_mul (to_size_t n) sizeof_int / sizeof_int = n.
Proof.
  intros H. rewrite bytes_nonneg by exact H. unfold sizeof_int. now apply Z.div_mul.
Qed.

(** X7.  [setup_kernel_memory] always returns: it looks at none of the five
    results.  It asks for three buffers of [SZ * sizeof (int)] bytes in the
    context the global holds, stores whatever handle comes back (a null one
    included) in [bufV1], [bufV2] and [bufV_out], and starts exactly two
    transfers, from [v1] into the first and from [v2] into the second buffer;
    the output buffer is never written from the host.  No other global and
    no host memory changes.  When the five calls succeed on non-null vectors
    of a size in [0, INT_MAX], the two input buffers hold the [SZ] elements
    of their host vectors. *)
Theorem X7_setup_kernel_memory_checks_nothing w st :
  let n := glob st SZ in
  let bytes := size_mul (to_size_t n) sizeof_int in
  let b1 := new_handle w (at_clCreateBuffer bufV1) (fresh st) in
  let b2 := new_handle w (at_clCreateBuffer bufV2) (Pos.succ (fresh st)) in
  let b3 := new_handle w (at_clCreateBuffer bufV_out) (Pos.succ (Pos.succ (fresh st))) in
  let st' := snd (setup_kernel_memory w st) in
  fst (setup_kernel_memory w st) = Ret tt
  /\ (exists r1 r2,
        emitted (setup_kernel_memory w) st
        = [Call_clCreateBuffer (glob st context) bytes b1;
           Call_clCreateBuffer (glob st context) bytes b2;
           Call_clCreateBuffer (glob st context) bytes b3;
           Call_clEnqueueWriteBuffer (glob st queue) b1 bytes (glob st v1) r1;
           Call_clEnqueueWriteBuffer (glob st queue) b2 bytes (glob st v2) r2]
        /\ reported w (at_clEnqueueWriteBuffer bufV1) r1
        /\ reported w (at_clEnqueueWriteBuffer bufV2) r2)
  /\ glob st' bufV1 = b1 /\ glob st' bufV2 = b2 /\ glob st' bufV_out = b3
  /\ (forall g, ~ In g [bufV1; bufV2; bufV_out] -> glob st' g = glob st g)
  /\ heap st' = heap st /\ kargs st' = kargs st
  /\ (failed w (at_clCreateBuffer bufV1) = false ->
      failed w (at_clCreateBuffer bufV2) = false ->
      failed w (at_clEnqueueWriteBuffer bufV1) = false ->
      failed w (at_clEnqueueWriteBuffer bufV2) = false ->
      glob st v1 <> NULL -> glob st v2 <> NULL -> 0 <= n <= INT_MAX ->
      exists m1 m2,
        dmem st' b1 = Some m1 /\ dmem st' b2 = Some m2
        /\ forall i, 0 <= i < n ->
             m1 i = heap st (glob st v1) i /\ m2 i = heap st (glob st v2) i).
Proof.
  destruct st as [g h d a f nr nc t].
  unfold emitted, setup_kernel_memory. exec.
  rewrite <- ?app_assoc; cbn [app]; rewrite skipn_length_app.
  split; [reflexivity|].
  split.
  { do 2 eexists. split; [reflexivity|]. split; do 2 eexists; reflexivity. }
  split; [reflexivity|]. split; [reflexivity|]. split; [reflexivity|].
  split.
  { intros x Hx. cbn [In] in Hx. destruct x; try reflexivity; exfalso; apply Hx; auto. }
  split; [reflexivity|]. split; [reflexivity|].
  intros F1 F2 W1 W2 P1 P2 Hn.
  rewrite (elements_of_bytes _ Hn).
  rewrite (new_handle_created _ _ _ F1), (new_handle_created _ _ _ F2).
  rewrite F1, F2, W1, W2. unfold is_null, NULL.
  apply Z.eqb_neq in P1, P2. rewrite P1, P2. cbn [negb andb].
  assert (N12 : Z.pos f <> Z.pos (Pos.succ f)) by lia.
  assert (N13 : Z.pos f <> Z.pos (Pos.succ (Pos.succ f))) by lia.
  assert (N23 : Z.pos (Pos.succ f) <> Z.pos (Pos.succ (Pos.succ f))) by lia.
  set (m0 := upd_if _ (upd_if true (upd_if true d _ _) _ _) _ _).
  assert (E1 : m0 (Z.pos f) = Some (fun _ => 0)).
  { subst m0. rewrite upd_if_other by exact N13. rewrite upd_if_other by exact N12.
    apply upd_if_same. }
  assert (E2 : m0 (Z.pos (Pos.succ f)) = Some (fun _ => 0)).
  { subst m0. rewrite upd_if_other by exact N23. apply upd_if_same. }
  do 2 eexists. split; [|split].
  - rewrite dev_write_other by exact N12. apply dev_write_same. exact E1.
  - apply dev_write_same. rewrite dev_write_other by (intros X; apply N12; now symmetry).
    exact E2.
  - intros i Hi. unfold blit.
    replace (0 <=? i) with true by (symmetry; apply Z.leb_le; lia).
    replace (i <? g SZ) with true by (symmetry; apply Z.ltb_lt; lia).
    split; reflexivity.
Qed.

Lemma X7_witness :
  failed ideal (at_clCreateBuffer bufV1) = false
  /\ failed ideal (at_clEnqueueWriteBuffer bufV2) = false
  /\ glob sample_state v1 <> NULL
  /\ 0 <= glob sample_state SZ <= INT_MAX
  /\ exists m1 m2,
       dmem (snd (setup_kernel_memory ideal sample_state)) 4 = Some m1
       /\ dmem (snd (setup_kernel_memory ideal sample_state)) 5 = Some m2
       /\ m1 0 = 10 /\ m2 2 = 22.
Proof.
  split; [reflexivity|]. split; [reflexivity|]. split; [discriminate|].
  split; [cbv; split; discriminate|].
  destruct (X7_setup_kernel_memory_checks_nothing ideal sample_state)
    as (_ & _ & _ & _ & _ & _ & _ & _ & U).
  destruct (U eq_refl eq_refl eq_refl eq_refl ltac:(discriminate) ltac:(discriminate)
              ltac:(cbv; split; discriminate)) as (m1 & m2 & E1 & E2 & H).
  exists m1, m2. split; [exact E1|]. split; [exact E2|].
  split.
  - exact (proj1 (H 0 ltac:(cbv; split; [discriminate|reflexivity]))).
  - exact (proj2 (H 2 ltac:(cbv; split; [discriminate|reflexivity]))).
Defined.

(** *** [build_program] *)

Ltac by_cases :=
  repeat match goal with
    | |- _ /\ _ => split
    | |- _ <-> _ => split
    | |- _ -> _ => intro
    | H : exists _, _ |- _ => destruct H
    | H : _ /\ _ |- _ => destruct H
    | H : In _ _ |- _ => cbn [In] in H
    | H : _ \/ _ |- _ => destruct H
    | H : False |- _ => contradiction
    end;
  subst; try discriminate; try congruence; try reflexivity; try lia; eauto.

(** X8.  [build_program] returns a program exactly when the source file
    opens, the source buffer is allocated, the program object is created and
    the build succeeds; it then leaves [CL_SUCCESS] in the global [err],
    which it assigns twice, and has freed the source buffer.  It never tests
    the result of [malloc]: a failed allocation of the source buffer, or of
    the log buffer after a failed build, is a crash.  Every other failure is
    [exit (1)].  When the program object cannot be created the function
    exits before [free (program_buffer)]; when the build fails the log goes
    to standard output, not to [perror].  No global other than [err]
    changes. *)
Theorem X8_build_program_outcomes w ctx dev file st :
  let r := build_program w ctx dev file st in
  let evs := emitted (build_program w ctx dev file) st in
  let buf := Z.pos (Pos.succ (fresh st)) in
  let prog := Z.pos (Pos.succ (Pos.succ (fresh st))) in
  let logbuf := Z.pos (Pos.succ (Pos.succ (Pos.succ (fresh st)))) in
  ((exists p, fst r = Ret p) <-> build_ok w = true)
  /\ (build_ok w = true ->
      fst r = Ret prog /\ glob (snd r) err = CL_SUCCESS
      /\ created evs = [buf; prog] /\ released evs = [buf] /\ diagnostics evs = [])
  /\ (fst r = Crash <-> build_crashes w = true)
  /\ (forall c, fst r = Exit c -> c = 1)
  /\ (failed w at_fopen = true ->
      fst r = Exit 1
      /\ evs = [Call_fopen file NULL; Perror "Couldn't find the program file"])
  /\ (failed w at_fopen = false -> failed w at_malloc_source = false ->
      failed w at_clCreateProgramWithSource = true ->
      fst r = Exit 1 /\ glob (snd r) err < 0
      /\ created evs = [buf] /\ released evs = []
      /\ diagnostics evs = ["Couldn't create the program"%string])
  /\ (failed w at_fopen = false -> failed w at_malloc_source = false ->
      failed w at_clCreateProgramWithSource = false ->
      failed w at_clBuildProgram = true -> failed w at_malloc_log = false ->
      fst r = Exit 1 /\ glob (snd r) err < 0
      /\ diagnostics evs = []
      /\ stdout evs = [Printf "%s
" [AStr (w_build_log w)]]
      /\ created evs = [buf; prog; logbuf] /\ released evs = [buf; logbuf])
  /\ (forall g, g <> err -> glob (snd r) g = glob st g).
Proof.
  destruct st as [g h d a f nr nc t].
  unfold emitted, build_ok, build_crashes.
  unfold build_program, clCreateProgramWithSource, clBuildProgram, create, fopen, malloc,
    new_handle.
  destruct (w_fault w at_fopen) eqn:S1;
    [|destruct (w_fault w at_malloc_source) eqn:S2;
      [|destruct (w_fault w at_clCreateProgramWithSource) eqn:S3;
        [|destruct (w_fault w at_clBuildProgram) eqn:S4;
          [destruct (w_fault w at_malloc_log) eqn:S5|]]]].
  all: use_sites; exec.
  all: rewrite <- ?app_assoc; cbn [app]; rewrite ?skipn_length_app.
  all: cbn [negb andb orb created released diagnostics stdout flat_map filter
            created_by released_by is_console app Z.eqb NULL].
  all: by_cases.
  all: try (match goal with x : gvar |- _ => destruct x end; congruence).
Qed.

Lemma X8_witness :
  failed build_fails at_clCreateProgramWithSource = false
  /\ failed build_fails at_clBuildProgram = true
  /\ failed build_fails at_malloc_log = false
  /\ fst (build_program build_fails 5 4 "k.cl" sample_state) = Exit 1
  /\ diagnostics (emitted (build_program build_fails 5 4 "k.cl") sample_state) = []
  /\ released (emitted (build_program build_fails 5 4 "k.cl") sample_state) = [5; 7].
Proof.
  split; [reflexivity|]. split; [reflexivity|]. split; [reflexivity|].
  destruct (X8_build_program_outcomes build_fails 5 4 "k.cl" sample_state)
    as (_ & _ & _ & _ & _ & _ & B & _).
  destruct (B eq_refl eq_refl eq_refl eq_refl eq_refl) as (Ex & _ & D & _ & _ & R).
  split; [exact Ex|]. split; [exact D|exact R].
Defined.

(** *** [setup_openCL_device_context_queue_kernel] *)

Ltac heap_below :=
  let p := fresh "p" in
  let Hp := fresh "Hp" in
  intros p Hp; unfold upd;
  repeat match goal with
    | |- context [p =? ?k] => destruct (Z.eqb_spec p k); [exfalso; lia|]
    end;
  reflexivity.

(** As [exec], for a state whose handle counter is not known: the successor
    of the counter is left alone. *)
Ltac run :=
  lazy beta iota zeta delta
    [bind ret get set emit exit crash printf perror free load store
     fst snd glob heap dmem kargs fresh nrand nclock trace
     set_glob set_heap set_dmem set_kargs set_fresh set_nrand set_nclock log logs
     gupd gupd_if gvar_eqb andb
     Z.ltb Z.eqb Z.compare Pos.compare Pos.compare_cont Pos.eqb
     CL_SUCCESS CL_DEVICE_NOT_FOUND NULL].

Ltac setup_case :=
  expose; use_sites; run;
  do 3 eexists; split; [reflexivity|];
  split; [cbn [trace]; rewrite <- ?app_assoc; reflexivity|];
  cbn [negb andb orb diagnostics flat_map filter device_stage app fst snd
       glob heap dmem kargs];
  split; [by_cases|]; split; [by_cases|]; split; [by_cases|];
  split; [reflexivity|]; split; [reflexivity|];
  split; [by_cases|];
  split; [unfold data_globals; intros x Hx; cbn [In] in Hx;
          repeat (destruct Hx as [<-|Hx]; [reflexivity|]); contradiction|];
  split; [heap_below|]; split; reflexivity.

Ltac rest_cases w :=
  destruct (w_fault w at_clCreateContext) eqn:?; [setup_case|];
  destruct (w_fault w at_fopen) eqn:?; [setup_case|];
  destruct (w_fault w at_malloc_source) eqn:?; [setup_case|];
  destruct (w_fault w at_clCreateProgramWithSource) eqn:?; [setup_case|];
  destruct (w_fault w at_clBuildProgram) eqn:?;
    [destruct (w_fault w at_malloc_log) eqn:?; setup_case|];
  destruct (w_fault w at_clCreateCommandQueue) eqn:?; [setup_case|];
  destruct (w_fault w at_clCreateKernel) eqn:?; setup_case.

Lemma setup_cases w file kname st :
  exists o st' evs,
    setup_openCL_device_context_queue_kernel w file kname st = (o, st')
    /\ trace st' = trace st ++ evs
    /\ (o = Ret tt <-> setup_ok w = true)
    /\ (o = Crash <-> setup_crashes w = true)
    /\ (forall c, o = Exit c -> c = 1)
    /\ diagnostics evs = setup_diagnostic w
    /\ filter device_stage evs = []
    /\ (o = Ret tt ->
        glob st' err = CL_SUCCESS
        /\ forall x, In x [device_id; context; program; queue; kernel] -> 0 < glob st' x)
    /\ (forall x, In x data_globals -> glob st' x = glob st x)
    /\ (forall p, p < Z.pos (fresh st) -> heap st' p = heap st p)
    /\ dmem st' = dmem st /\ kargs st' = kargs st.
Proof.
  destruct st as [g h d a f nr nc t].
  unfold setup_ok, setup_crashes, build_crashes, setup_diagnostic, device_found,
    gpu_not_found.
  cbn [glob heap dmem kargs fresh trace].
  destruct (w_fault w at_clGetPlatformIDs) eqn:S1; [setup_case|].
  destruct (w_fault w (at_clGetDeviceIDs CL_DEVICE_TYPE_GPU)) as [[e|e|]|] eqn:G.
  - setup_case.
  - setup_case.
  - destruct (w_fault w (at_clGetDeviceIDs CL_DEVICE_TYPE_CPU)) eqn:C; [setup_case|].
    rest_cases w.
  - rest_cases w.
Qed.

(** X9.  Set-up stops at the first step that fails, in the order platform,
    device, context, source file, source buffer, program object, build,
    queue, kernel: it returns exactly when all of them succeed, crashes
    exactly when it is [build_program] that stores through a null pointer,
    and otherwise exits with status 1.  It writes at most one [perror]
    diagnostic, the one of that first failing step.  When it returns the
    global [err] holds [CL_SUCCESS] and the five handles it stored are not
    null.  It assigns none of the size, the vectors, the buffers and the
    event, writes host memory only in blocks it allocated itself, and
    touches neither device memory nor the kernel arguments. *)
Theorem X9_setup_stops_at_first_failure w file kname st :
  let r := setup_openCL_device_context_queue_kernel w file kname st in
  let evs := emitted (setup_openCL_device_context_queue_kernel w file kname) st in
  (fst r = Ret tt <-> setup_ok w = true)
  /\ (fst r = Crash <-> setup_crashes w = true)
  /\ (forall c, fst r = Exit c -> c = 1)
  /\ diagnostics evs = setup_diagnostic w
  /\ (List.length (diagnostics evs) <= 1)%nat
  /\ (fst r = Ret tt ->
      glob (snd r) err = CL_SUCCESS
      /\ forall x, In x [device_id; context; program; queue; kernel] ->
           glob (snd r) x <> NULL)
  /\ (forall x, In x data_globals -> glob (snd r) x = glob st x)
  /\ (forall p, p < Z.pos (fresh st) -> heap (snd r) p = heap st p)
  /\ dmem (snd r) = dmem st /\ kargs (snd r) = kargs st.
Proof.
  destruct (setup_cases w file kname st)
    as (o & st' & evs & E & Ht & Hret & Hcrash & Hexit & Hd & _ & Hok & Hg & Hh & Hm & Ha).
  unfold emitted. rewrite E. cbn [fst snd]. rewrite Ht, skipn_length_app.
  split; [exact Hret|]. split; [exact Hcrash|]. split; [exact Hexit|].
  split; [exact Hd|]. split.
  { rewrite Hd. unfold setup_diagnostic.
    repeat match goal with |- context [if ?b then _ else _] => destruct b end;
      cbn [List.length]; lia. }
  split.
  { intros X. destruct (Hok X) as (He & Hpos). split; [exact He|].
    intros x Hx. specialize (Hpos x Hx). unfold NULL. lia. }
  split; [exact Hg|]. split; [exact Hh|]. split; [exact Hm|exact Ha].
Qed.

Lemma setup_diagnostic_known w s :
  In s (setup_diagnostic w) -> s <> "Couldn't create a kernel argument"%string.
Proof.
  unfold setup_diagnostic.
  repeat match goal with |- context [if ?b then _ else _] => destruct b end.
  all: cbn [In]; intros X; first [contradiction | destruct X as [<-|[]]; discriminate].
Qed.

(** X10.  In the order in which [main] calls them, set-up, the buffer stage
    and the argument stage end the way set-up ends: once set-up has
    returned, [err] is zero, the buffer stage tests nothing and does not
    touch [err], so the test in [copy_kernel_args] cannot fire.  For no
    platform and in no state is the diagnostic of [copy_kernel_args]
    written. *)
Theorem X10_argument_check_cannot_fire w file kname st :
  let setup := setup_openCL_device_context_queue_kernel w file kname in
  let m := setup ;; setup_kernel_memory w ;; copy_kernel_args w in
  fst (m st) = fst (setup st)
  /\ diagnostics (emitted m st) = setup_diagnostic w
  /\ ~ In "Couldn't create a kernel argument"%string (diagnostics (emitted m st)).
Proof.
  intros setup m.
  assert (D : fst (m st) = fst (setup st)
              /\ diagnostics (emitted m st) = setup_diagnostic w).
  { subst setup m.
    destruct (setup_cases w file kname st)
      as (o & st' & evs & E & Ht & _ & _ & _ & Hd & _ & Hok & _).
    unfold emitted. unfold bind at 1 3. rewrite E.
    destruct o as [[]|c|].
    - destruct (Hok eq_refl) as (He & _).
      destruct st' as [g' h' d' a' f' nr' nc' t'].
      cbn [glob] in He. cbn [trace] in Ht. unfold CL_SUCCESS in He.
      unfold setup_kernel_memory, copy_kernel_args. exec. rewrite He. exec.
      split; [reflexivity|].
      rewrite Ht, <- !app_assoc, skipn_length_app.
      unfold diagnostics. rewrite flat_map_app. cbn [flat_map app].
      rewrite app_nil_r. exact Hd.
    - cbn [fst snd]. split; [reflexivity|]. now rewrite Ht, skipn_length_app.
    - cbn [fst snd]. split; [reflexivity|]. now rewrite Ht, skipn_length_app. }
  destruct D as (D1 & D2). split; [exact D1|]. split; [exact D2|].
  rewrite D2. intros X. now apply (setup_diagnostic_known w _ X).
Qed.

(** *** Runs that stop early, in detail *)









(** *** The stages after set-up *)

Lemma host_read_other c h dst n m b p : p <> dst -> host_read c h dst n m b p = h p.
Proof.
  unfold host_read. intros Hp. destruct (m b); [|reflexivity].
  destruct c; [|reflexivity]. now apply upd_other.
Qed.

Lemma host_read_failed h dst n m b : host_read false h dst n m b = h.
Proof. unfold host_read. now destruct (m b). Qed.

(** Lines 40-64 on a world whose set-up succeeds, with what the trace does
    not show: the event the wait is given, and what became of host memory. *)
Lemma main_compute_detail w g0 n p1 p2 p3 H k T :
  g0 SZ = n ->
  setup_ok w = true ->
  p1 <> NULL \/ n <= 0 -> p2 <> NULL \/ n <= 0 -> p3 <> NULL \/ n <= 0 ->
  exists st' c,
    main_compute w (loaded g0 p1 p2 p3 H k T) = (Ret tt, st')
    /\ trace st' = T ++ success_trace w n p1 p2 p3
                         (vector (H p1) n) (vector (H p2) n) (vector (heap st' p3) n) c
    /\ r_event c = (if succeeded (r_launch c)
                    then Z.pos (snd (selection w) + 10) else g0 event)
    /\ r_wait c = status w at_clWaitForEvents CL_INVALID_EVENT (negb (is_null (r_event c)))
    /\ glob st' event = r_event c
    /\ (forall p, p <> p3 -> p < 5 -> heap st' p = H p)
    /\ (failed w at_clEnqueueReadBuffer = true -> p3 < 5 -> heap st' p3 = H p3)
    /\ codes_reported w c.
Proof.
  intros Hn Hs X1 X2 X3.
  destruct (setup_ok_sites w Hs) as (S1 & S2 & S3 & S4 & S5 & S6 & S7 & S8 & [G|[G C]]).
  all: expose; use_sites; exec; rewrite ?Hn.
  all: rewrite print_spec by assumption; exec; rewrite ?Hn.
  all: rewrite print_spec by assumption; exec; rewrite ?Hn.
  all: rewrite print_spec by assumption; exec; rewrite ?Hn.
  all: eexists; eexists (Build_Codes _ _ _ _ _ _ _ _ _ _); (split; [reflexivity|]).
  all: unfold success_trace, selection, gpu_not_found; rewrite G.
  all: lazy beta iota zeta delta [trace heap glob fst snd r_write1 r_write2 r_arg0 r_arg1
      r_arg2 r_arg3 r_launch r_event r_wait r_read Pos.add Pos.succ].
  all: split; [rewrite <- !app_assoc; reflexivity|].
  all: split; [unfold succeeded, CL_SUCCESS; reflexivity|].
  all: split; [reflexivity|].
  all: split; [reflexivity|].
  all: split; [intros p Hp Hlt; rewrite host_read_other by exact Hp;
                apply upd_other; lia|].
  all: split; [intros F Hlt; rewrite F; cbn [negb andb]; rewrite host_read_failed;
                apply upd_other; lia|].
  all: unfold codes_reported, reported.
  all: repeat split; do 2 eexists; reflexivity.
Qed.

Lemma args_globals_event argv : args_globals argv event = NULL.
Proof. unfold args_globals. now destruct (1 <? Z.of_nat (List.length argv)). Qed.

Lemma run_detail w argv :
  hosts_ok w (size_arg argv) = true -> setup_ok w = true ->
  exists c,
    exit_status w argv = Exited 0
    /\ events w argv
       = init_trace w (size_arg argv)
         ++ success_trace w (size_arg argv)
              (host_ptr w v1) (host_ptr w v2) (host_ptr w v_out)
              (vector (host_heap w (size_arg argv) (host_ptr w v1)) (size_arg argv))
              (vector (host_heap w (size_arg argv) (host_ptr w v2)) (size_arg argv))
              (vector (heap (final w argv) (host_ptr w v_out)) (size_arg argv)) c
    /\ r_event c = (if succeeded (r_launch c)
                    then Z.pos (snd (selection w) + 10) else NULL)
    /\ r_wait c = status w at_clWaitForEvents CL_INVALID_EVENT (negb (is_null (r_event c)))
    /\ glob (final w argv) event = r_event c
    /\ (forall p, p <> host_ptr w v_out -> p < 5 ->
          heap (final w argv) p = host_heap w (size_arg argv) p)
    /\ (failed w at_clEnqueueReadBuffer = true ->
        heap (final w argv) (host_ptr w v_out)
        = host_heap w (size_arg argv) (host_ptr w v_out))
    /\ codes_reported w c.
Proof.
  intros Hh Hs.
  destruct (main_compute_detail w (args_globals argv) (size_arg argv)
              (host_ptr w v1) (host_ptr w v2) (host_ptr w v_out)
              (host_heap w (size_arg argv))
              (0 + Z.to_nat (size_arg argv) + Z.to_nat (size_arg argv)
               + Z.to_nat (size_arg argv))%nat
              (init_trace w (size_arg argv))
              (args_globals_SZ argv) Hs
              ltac:(apply hosts_ok_ptr; cbn; auto)
              ltac:(apply hosts_ok_ptr; cbn; auto)
              ltac:(apply hosts_ok_ptr; cbn; auto))
    as (st' & c & E & Ht & Hev & Hw & Hg & Hp & Hr & Hc).
  exists c. unfold exit_status, events, final, run, main, bind. cbv zeta.
  rewrite main_init_ok by exact Hh. unfold after_main_init. rewrite E.
  cbn [fst snd termination_of]. rewrite args_globals_event in Hev.
  split; [reflexivity|]. split; [exact Ht|]. split; [exact Hev|].
  split; [exact Hw|]. split; [exact Hg|]. split; [exact Hp|].
  split; [|exact Hc].
  intros F. apply Hr; [exact F|apply host_ptr_small].
Qed.



(** X13.  The wait follows the launch unconditionally.  When the launch
    succeeds the wait is given the event the launch stored in the global
    [event], which no call of the run ever releases; when the launch fails,
    [event] still holds the null it was initialised with, the wait is given
    null and fails in its turn.  Neither status is looked at: the run reads
    the buffer back and ends with status 0. *)
Theorem X13_wait_follows_any_launch w argv :
  hosts_ok w (size_arg argv) = true -> setup_ok w = true ->
  exists q k r ev rw,
    filter is_sync (events w argv)
    = [Call_clEnqueueNDRangeKernel q k (to_size_t (size_arg argv)) r;
       Call_clWaitForEvents ev rw]
    /\ glob (final w argv) event = ev
    /\ (r = CL_SUCCESS -> ev <> NULL /\ ~ In ev (released (events w argv)))
    /\ (r <> CL_SUCCESS -> ev = NULL /\ rw < 0)
    /\ (failed w at_clEnqueueNDRangeKernel = true -> r < 0)
    /\ exit_status w argv = Exited 0.
Proof.
  intros Hh Hs.
  destruct (run_detail w argv Hh Hs) as (c & Ex & Ev & Hev & Hw & Hg & _ & _ & Hc).
  destruct Hc as (_ & _ & _ & _ & _ & _ & (inv & ok & Rl) & _).
  exists (Z.pos (snd (selection w) + 5)), (Z.pos (snd (selection w) + 6)),
    (r_launch c), (r_event c), (r_wait c).
  split.
  { rewrite Ev. unfold init_trace, success_trace. rewrite !filter_app.
    rewrite !filter_printed by reflexivity.
    unfold selection. destruct (gpu_not_found w); reflexivity. }
  split; [exact Hg|].
  split.
  { intros R. rewrite Hev. unfold succeeded. rewrite R. cbn [Z.eqb CL_SUCCESS].
    split; [discriminate|].
    rewrite Ev. observe.
    all: cbn [released_by app flat_map In Pos.add Pos.succ Pos.add_carry].
    all: pose proof (host_ptr_small w v1); pose proof (host_ptr_small w v2);
      pose proof (host_ptr_small w v_out).
    all: unfold new_handle.
    all: destruct (failed w (at_clCreateBuffer bufV1));
      destruct (failed w (at_clCreateBuffer bufV2));
      destruct (failed w (at_clCreateBuffer bufV_out)).
    all: unfold NULL; intros X.
    all: repeat (destruct X as [X|X]; [lia|]); exact X. }
  split.
  { intros R. apply Z.eqb_neq in R. rewrite Hw, Hev. unfold succeeded. rewrite R.
    split; [reflexivity|]. unfold status, is_null. cbn [NULL Z.eqb negb].
    destruct (w_fault w at_clWaitForEvents); unfold CL_INVALID_EVENT; lia. }
  split.
  { intros F. rewrite Rl. unfold status. unfold failed in F.
    destruct (w_fault w at_clEnqueueNDRangeKernel); [lia|discriminate F]. }
  exact Ex.
Qed.

Lemma X13_witness :
  hosts_ok launch_fails (size_arg ["prog"; "3"]%string) = true
  /\ setup_ok launch_fails = true
  /\ exists q k r ev rw,
       filter is_sync (events launch_fails ["prog"; "3"]%string)
       = [Call_clEnqueueNDRangeKernel q k (to_size_t (size_arg ["prog"; "3"]%string)) r;
          Call_clWaitForEvents ev rw]
       /\ (r <> CL_SUCCESS -> ev = NULL /\ rw < 0)
       /\ exit_status launch_fails ["prog"; "3"]%string = Exited 0.
Proof.
  split; [reflexivity|]. split; [reflexivity|].
  destruct (X13_wait_follows_any_launch launch_fails ["prog"; "3"]%string eq_refl eq_refl)
    as (q & k & r & ev & rw & F & _ & _ & N & _ & Ex).
  exists q, k, r, ev, rw. split; [exact F|]. split; [exact N|exact Ex].
Defined.

Lemma host_heap_output w n i :
  hosts_ok w n = true -> 0 <= i < n ->
  host_heap w n (host_ptr w v_out) i
  = Z.rem (w_rand w (Z.to_nat n + Z.to_nat n + Z.to_nat i)) 100.
Proof.
  intros H Hi.
  destruct (hosts_ok_pos w n ltac:(lia) H) as (A & B & C).
  unfold host_heap. rewrite A, B, C. rewrite !fill_at.
  replace (Z.of_nat (Z.to_nat n)) with n by lia.
  zcases; try lia; f_equal; f_equal; lia.
Qed.

(** X14.  The status of the read-back is dropped like the others.  When the
    read-back fails the output vector is never written: what the run prints
    as the result is what [init] put there, the third batch of
    pseudo-random numbers modulo 100, and not a sum; no diagnostic is
    written and the exit status is 0. *)
Theorem X14_failed_read_back_goes_unnoticed w argv e :
  hosts_ok w (size_arg argv) = true -> setup_ok w = true ->
  w_fault w at_clEnqueueReadBuffer = Some e ->
  let n := size_arg argv in
  exit_status w argv = Exited 0
  /\ diagnostics (events w argv) = []
  /\ (forall i, 0 <= i < n ->
        heap (final w argv) (host_ptr w v_out) i
        = Z.rem (w_rand w (Z.to_nat n + Z.to_nat n + Z.to_nat i)) 100)
  /\ stdout (events w argv)
     = printed (vector (host_heap w n (host_ptr w v1)) n)
       ++ printed (vector (host_heap w n (host_ptr w v2)) n)
       ++ stdout (fst (selection w))
       ++ printed (vector (host_heap w n (host_ptr w v_out)) n)
       ++ [Printf "Kernel Execution Time: %f ms
" [ADouble (millis (w_clock w 0) (w_clock w 1))]]
  /\ exists q b bytes,
       In (Call_clEnqueueReadBuffer q b bytes (host_ptr w v_out) (Z.neg e)) (events w argv).
Proof.
  intros Hh Hs He n.
  destruct (run_detail w argv Hh Hs) as (c & Ex & Ev & _ & _ & _ & _ & Hr & Hc).
  destruct Hc as (_ & _ & _ & _ & _ & _ & _ & _ & (inv & ok & Rr)).
  rewrite (status_Some w _ inv ok e He) in Rr.
  specialize (Hr (failed_Some w _ e He)). fold n in Hr.
  rewrite Hr in Ev. rewrite Ev. subst n.
  split; [exact Ex|].
  split; [observe; reflexivity|].
  split; [intros i Hi; rewrite Hr; now apply host_heap_output|].
  split; [observe; reflexivity|].
  do 3 eexists. rewrite <- Rr. unfold success_trace.
  apply in_or_app. right. apply in_or_app. right. apply in_or_app. right.
  apply in_or_app. right. apply in_or_app. right. apply in_or_app. left.
  cbn [In]. auto 30.
Qed.

Lemma X14_witness :
  hosts_ok read_fails (size_arg ["prog"; "3"]%string) = true
  /\ setup_ok read_fails = true
  /\ w_fault read_fails at_clEnqueueReadBuffer = Some 5%positive
  /\ exit_status read_fails ["prog"; "3"]%string = Exited 0
  /\ diagnostics (events read_fails ["prog"; "3"]%string) = []
  /\ exists q b bytes,
       In (Call_clEnqueueReadBuffer q b bytes (host_ptr read_fails v_out) (-5))
          (events read_fails ["prog"; "3"]%string).
Proof.
  split; [reflexivity|]. split; [reflexivity|]. split; [reflexivity|].
  destruct (X14_failed_read_back_goes_unnoticed read_fails ["prog"; "3"]%string 5
              eq_refl eq_refl eq_refl) as (Ex & D & _ & _ & R).
  split; [exact Ex|]. split; [exact D|exact R].
Defined.
